(** * TMP117 driver (tmp117.py): shallow embedding and checked properties

    The driver talks to a TI TMP117 temperature sensor over I2C.  Its
    arithmetic is Python [float] arithmetic (IEEE-754 binary64), modelled
    here with the bit-exact [spec_float] operations of the Standard
    Library; its bus traffic is modelled as explicit state passing over an
    arbitrary device, with a log of the transactions performed. *)

From Stdlib Require Import ZArith List Bool Lia QArith.
From Stdlib Require Import Strings.Byte.
From Stdlib Require Import Floats.SpecFloat.
Import ListNotations.
Open Scope Z_scope.

(** ** Outcomes of a Python call *)

Inductive exn : Type :=
| ValueError
| AttributeError
| OverflowError
| ZeroDivisionError
| StructError.

(** [Pending] is not a Python result: it marks a run whose polling loop was
    still spinning when the step budget given to the model ran out. *)
Inductive outcome (A : Type) : Type :=
| Ret (a : A)
| Raise (e : exn)
| Pending.

Arguments Ret {A} a.
Arguments Raise {A} e.
Arguments Pending {A}.

(** ** Python floats *)

Module PyFloat.

Definition prec : Z := 53.
Definition emax : Z := 1024.

Definition float : Type := spec_float.

(** [float(z)] for an [int]: round to nearest even, exact below 2^53 (the
    driver converts only 16-bit counts and small literals). *)
Definition of_int (z : Z) : float := binary_normalize prec emax z 0 false.

Definition mul (x y : float) : float := SFmul prec emax x y.

Definition is_zero (x : float) : bool :=
  match x with S754_zero _ => true | _ => false end.

(** [x / y]: Python raises on a zero divisor where IEEE would give inf/nan. *)
Definition truediv (x y : float) : outcome float :=
  if is_zero y then Raise ZeroDivisionError else Ret (SFdiv prec emax x y).

(** [x < y] and [x > y]; both are [False] when either side is NaN. *)
Definition lt (x y : float) : bool := SFltb x y.
Definition gt (x y : float) : bool := SFltb y x.

(** [int(x)]: truncation toward zero. *)
Definition to_int (x : float) : outcome Z :=
  match x with
  | S754_zero _ => Ret 0
  | S754_nan => Raise ValueError
  | S754_infinity _ => Raise OverflowError
  | S754_finite s m e =>
      let a := match e with
               | Zneg p => Z.shiftr (Zpos m) (Zpos p)
               | _ => Z.shiftl (Zpos m) e
               end in
      Ret (if s then - a else a)
  end.

(** The rational number a float stands for ([None] for inf and NaN). *)
Definition exact (x : float) : option Q :=
  match x with
  | S754_zero _ => Some (0 # 1)
  | S754_finite s m e =>
      let q := match e with
               | Zneg p => Zpos m # Pos.shiftl 1 (Npos p)
               | _ => Z.shiftl (Zpos m) e # 1
               end in
      Some (if s then Qopp q else q)
  | _ => None
  end.

Definition valid (x : float) : bool := valid_binary prec emax x.

End PyFloat.

Abbreviation float := PyFloat.float.

(** ** Module constants of tmp117.py *)

Definition _TEMP_RESULT : byte := x00.
Definition _CONFIGURATION : byte := x01.
Definition _T_HIGH_LIMIT : byte := x02.
Definition _T_LOW_LIMIT : byte := x03.
Definition _EEPROM_UL : byte := x04.
Definition _EEPROM1 : byte := x05.
Definition _EEPROM2 : byte := x06.
Definition _TEMP_OFFSET : byte := x07.
Definition _EEPROM3 : byte := x08.
Definition _DEVICE_ID : byte := x0f.
Definition _DEVICE_ID_VALUE : Z := 0x0117.

(** [0.0078125] is 2^-7, the float [1/128]. *)
Definition _TMP117_RESOLUTION : float := S754_finite false 4503599627370496 (-59).

(** The literal [0.001] of the polling loop: the double nearest to 1/1000. *)
Definition float_0_001 : float :=
  Eval vm_compute in
    SFdiv PyFloat.prec PyFloat.emax (PyFloat.of_int 1) (PyFloat.of_int 1000).

Definition _CONTINUOUS_CONVERSION_MODE : Z := 0.
Definition _ONE_SHOT_MODE : Z := 3.
Definition _SHUTDOWN_MODE : Z := 1.

Definition MEASUREMENTMODE_CONTINUOUS : Z := 0.
Definition MEASUREMENTMODE_ONE_SHOT : Z := 3.
Definition MEASUREMENTMODE_SHUTDOWN : Z := 1.

(** ** Unit conversion *)

(** [raw * _TMP117_RESOLUTION], the expression shared by [temperature],
    [temperature_offset], [high_limit] and [low_limit]. *)
Definition raw_to_celsius (raw : Z) : float :=
  PyFloat.mul (PyFloat.of_int raw) _TMP117_RESOLUTION.

Definition _scaled_limit (value : float) : outcome Z :=
  if PyFloat.gt value (PyFloat.of_int 256) || PyFloat.lt value (PyFloat.of_int (-256))
  then Raise ValueError
  else match PyFloat.truediv value _TMP117_RESOLUTION with
       | Ret q => PyFloat.to_int q
       | Raise e => Raise e
       | Pending => Pending
       end.

(** ** The I2C bus

    Every transfer of the driver is either a register-pointer write followed
    by a two-byte read ([write_then_readinto] with a two-byte input buffer)
    or a plain write of a whole buffer.  The sensor at the other end is any
    state machine answering those transfers; elapsed time is something it
    can observe too, since conversions finish while the driver sleeps.  The
    presence probe done when the bus handle is opened is below this
    interface. *)

Class I2CTarget (device : Type) : Type := {
  target_read : device -> list byte -> (byte * byte) * device;
  target_write : device -> list byte -> device;
  target_idle : device -> float -> device
}.

Inductive event : Type :=
| WriteThenReadInto (out_buffer in_buffer : list byte)
| Write (buffer : list byte)
| Sleep (seconds : float).

Definition byte_val (b : byte) : Z := Z.of_N (Byte.to_N b).

(** Storing an [int] into a [bytearray] cell; every value the driver stores
    is already between 0 and 255, where the mask changes nothing. *)
Definition byte_of_int (z : Z) : byte :=
  match Byte.of_N (Z.to_N (Z.land z 255)) with
  | Some b => b
  | None => x00
  end.

(** [struct.unpack] with formats [">H"] and [">h"]. *)
Definition unpack_H (b1 b2 : byte) : Z := byte_val b1 * 256 + byte_val b2.

Definition unpack_h (b1 b2 : byte) : Z :=
  let u := unpack_H b1 b2 in
  if 32768 <=? u then u - 65536 else u.

(** What [struct.pack_into(">h", ...)] does with a value that does not fit
    is up to the interpreter: CPython raises [struct.error], MicroPython and
    CircuitPython keep the low sixteen bits. *)
Inductive interpreter : Type := CPython | CircuitPython.

Definition pack_h (py : interpreter) (value : Z) : outcome (byte * byte) :=
  if (-32768 <=? value) && (value <=? 32767)
  then Ret (byte_of_int (Z.shiftr value 8), byte_of_int value)
  else match py with
       | CPython => Raise StructError
       | CircuitPython => Ret (byte_of_int (Z.shiftr value 8), byte_of_int value)
       end.

Record AlertStatus : Type := { high_alert : bool; low_alert : bool }.

Section Driver.

Context {device : Type} `{I2CTarget device}.

Record world : Type := { hw : device; trace : list event }.

Definition M (A : Type) : Type := world -> outcome A * world.

Definition ret {A} (a : A) : M A := fun w => (Ret a, w).

Definition raise {A} (e : exn) : M A := fun w => (Raise e, w).

Definition pending {A} : M A := fun w => (Pending, w).

Definition bind {A B} (c : M A) (k : A -> M B) : M B :=
  fun w =>
    match c w with
    | (Ret a, w') => k a w'
    | (Raise e, w') => (Raise e, w')
    | (Pending, w') => (Pending, w')
    end.

Definition lift {A} (o : outcome A) : M A := fun w => (o, w).

Notation "x <- c ;; k" := (bind c (fun x => k))
  (at level 61, c at next level, right associativity).
Notation "c ;;; k" := (bind c (fun _ => k))
  (at level 61, right associativity).

(** *** Bus primitives *)

Definition write_then_readinto (out_buffer : list byte) : M (byte * byte) :=
  fun w =>
    let '(bs, d) := target_read (hw w) out_buffer in
    (Ret bs,
     {| hw := d;
        trace := trace w ++ [WriteThenReadInto out_buffer [fst bs; snd bs]] |}).

Definition write (buffer : list byte) : M unit :=
  fun w =>
    (Ret tt,
     {| hw := target_write (hw w) buffer; trace := trace w ++ [Write buffer] |}).

Definition time_sleep (seconds : float) : M unit :=
  fun w =>
    (Ret tt,
     {| hw := target_idle (hw w) seconds; trace := trace w ++ [Sleep seconds] |}).

(** *** Register descriptors *)

(** The register codec: the [UnaryStruct], [ROUnaryStruct], [RWBits],
    [ROBits], [RWBit] and [ROBit] descriptors the driver imports.  Their
    code is not part of the driver file.  A struct read is one
    pointer-write-then-read, a struct write is one buffer write, a
    bit-field write is a read-modify-write of the enclosing two-byte
    register; all registers are two bytes, most significant byte first
    ([lsb_first = False]). *)

(** Modelled from the spec: reading a [UnaryStruct] or [ROUnaryStruct]
    attribute (the descriptor's code is missing): one register read,
    decoded big-endian. *)
Definition UnaryStruct_get (address : byte) (unpack : byte -> byte -> Z) : M Z :=
  bs <- write_then_readinto [address] ;;
  ret (unpack (fst bs) (snd bs)).

(** Modelled from the spec: assigning a [UnaryStruct] attribute (the
    descriptor's code is missing): pack the value, one register write. *)
Definition UnaryStruct_set (py : interpreter) (address : byte) (value : Z) : M unit :=
  bs <- lift (pack_h py value) ;;
  write [address; fst bs; snd bs].

(** Modelled from the spec: the mask of a bit field, [num_bits] wide from
    [lowest_bit] up (part of the missing [RWBits] code). *)
Definition bit_mask (num_bits lowest_bit : Z) : Z :=
  Z.shiftl (Z.shiftl 1 num_bits - 1) lowest_bit.

(** Modelled from the spec: the 16-bit word of a register, most
    significant byte first (part of the missing [RWBits] code). *)
Definition register_word (bs : byte * byte) : Z :=
  Z.lor (Z.shiftl (Z.lor (Z.shiftl 0 8) (byte_val (fst bs))) 8) (byte_val (snd bs)).

(** Modelled from the spec: reading an [RWBits] or [ROBits] attribute (the
    descriptor's code is missing): one register read, then mask and
    shift. *)
Definition Bits_get (num_bits : Z) (register_address : byte) (lowest_bit : Z) : M Z :=
  bs <- write_then_readinto [register_address] ;;
  let reg := register_word bs in
  ret (Z.shiftr (Z.land reg (bit_mask num_bits lowest_bit)) lowest_bit).

(** Modelled from the spec: assigning an [RWBits] attribute (the
    descriptor's code is missing): read the register, clear the field, or
    in the shifted value, write both bytes back. *)
Definition Bits_set (num_bits : Z) (register_address : byte) (lowest_bit : Z)
    (value : Z) : M unit :=
  let value := Z.shiftl value lowest_bit in
  bs <- write_then_readinto [register_address] ;;
  let reg := register_word bs in
  let reg := Z.land reg (Z.lnot (bit_mask num_bits lowest_bit)) in
  let reg := Z.lor reg value in
  let b2 := byte_of_int (Z.land reg 255) in
  let reg := Z.shiftr reg 8 in
  let b1 := byte_of_int (Z.land reg 255) in
  write [register_address; b1; b2].

(** Modelled from the spec: where a single bit lives (part of the missing
    [RWBit] code).  With a two-byte register sent most significant byte
    first, bit [bit] is in buffer cell [2 - bit / 8], under mask
    [1 << (bit % 8)]. *)
Definition Bit_pick (bit : Z) (bs : byte * byte) : byte :=
  if 2 - bit / 8 =? 1 then fst bs else snd bs.

(** Modelled from the spec: storing into the buffer cell of a single bit
    (part of the missing [RWBit] code). *)
Definition Bit_put (bit : Z) (bs : byte * byte) (b : byte) : byte * byte :=
  if 2 - bit / 8 =? 1 then (b, snd bs) else (fst bs, b).

(** Modelled from the spec: reading an [RWBit] or [ROBit] attribute (the
    descriptor's code is missing). *)
Definition Bit_get (register_address : byte) (bit : Z) : M bool :=
  bs <- write_then_readinto [register_address] ;;
  ret (negb (Z.land (byte_val (Bit_pick bit bs)) (Z.shiftl 1 (bit mod 8)) =? 0)).

(** Modelled from the spec: assigning an [RWBit] attribute (the
    descriptor's code is missing): read the register, set or clear the
    bit, write both bytes back. *)
Definition Bit_set (register_address : byte) (bit : Z) (value : bool) : M unit :=
  bs <- write_then_readinto [register_address] ;;
  let cell := byte_val (Bit_pick bit bs) in
  let mask := Z.shiftl 1 (bit mod 8) in
  let cell := if value then Z.lor cell mask else Z.land cell (Z.lnot mask) in
  let bs := Bit_put bit bs (byte_of_int cell) in
  write [register_address; fst bs; snd bs].

(** *** class TMP117 *)

Definition _part_id : M Z := UnaryStruct_get _DEVICE_ID unpack_H.
Definition _raw_temperature : M Z := UnaryStruct_get _TEMP_RESULT unpack_h.
Definition _raw_high_limit : M Z := UnaryStruct_get _T_HIGH_LIMIT unpack_h.
Definition _raw_low_limit : M Z := UnaryStruct_get _T_LOW_LIMIT unpack_h.
Definition _raw_temperature_offset : M Z := UnaryStruct_get _TEMP_OFFSET unpack_h.

Definition _alert_status_data_ready : M Z := Bits_get 3 _CONFIGURATION 13.
Definition _eeprom_busy : M bool := Bit_get _CONFIGURATION 12.
Definition _mode : M Z := Bits_get 2 _CONFIGURATION 10.
Definition _raw_measurement_delay : M Z := Bits_get 3 _CONFIGURATION 7.
Definition _raw_averaged_measurements : M Z := Bits_get 2 _CONFIGURATION 5.
Definition _raw_alert_mode : M bool := Bit_get _CONFIGURATION 4.

Definition reset : M unit := Bit_set _CONFIGURATION 1 true.

Definition _read_status : M (bool * bool * bool) :=
  status_flags <- _alert_status_data_ready ;;
  let high_alert := Z.land 4 status_flags >? 0 in
  let low_alert := Z.land 2 status_flags >? 0 in
  let data_ready := Z.land 1 status_flags >? 0 in
  ret (high_alert, low_alert, data_ready).

(** [while not self._read_status()[2]: time.sleep(0.001)], with a budget
    of loop tests. *)
Fixpoint poll_data_ready (fuel : nat) : M unit :=
  match fuel with
  | O => pending
  | S fuel' =>
      status <- _read_status ;;
      if snd status then ret tt
      else time_sleep float_0_001 ;;; poll_data_ready fuel'
  end.

Definition _set_mode_and_wait_for_measurement (fuel : nat) (mode : Z) : M float :=
  Bits_set 2 _CONFIGURATION 10 mode ;;;
  poll_data_ready fuel ;;;
  raw <- _raw_temperature ;;
  ret (raw_to_celsius raw).

Definition initialize (fuel : nat) : M unit :=
  _set_mode_and_wait_for_measurement fuel _CONTINUOUS_CONVERSION_MODE ;;;
  time_sleep (PyFloat.of_int 1).

Definition __init__ (fuel : nat) : M unit :=
  part_id <- _part_id ;;
  if negb (part_id =? _DEVICE_ID_VALUE) then raise AttributeError
  else reset ;;; initialize fuel.

Definition temperature : M float :=
  raw <- _raw_temperature ;;
  ret (raw_to_celsius raw).

Definition temperature_offset : M float :=
  raw <- _raw_temperature_offset ;;
  ret (raw_to_celsius raw).

Definition set_temperature_offset (py : interpreter) (value : float) : M unit :=
  raw <- lift (_scaled_limit value) ;;
  UnaryStruct_set py _TEMP_OFFSET raw.

Definition high_limit : M float :=
  raw <- _raw_high_limit ;;
  ret (raw_to_celsius raw).

Definition set_high_limit (py : interpreter) (value : float) : M unit :=
  raw <- lift (_scaled_limit value) ;;
  UnaryStruct_set py _T_HIGH_LIMIT raw.

Definition low_limit : M float :=
  raw <- _raw_low_limit ;;
  ret (raw_to_celsius raw).

Definition set_low_limit (py : interpreter) (value : float) : M unit :=
  raw <- lift (_scaled_limit value) ;;
  UnaryStruct_set py _T_LOW_LIMIT raw.

Definition alert_status : M AlertStatus :=
  status <- _read_status ;;
  let '(high_alert, low_alert, _) := status in
  ret {| high_alert := high_alert; low_alert := low_alert |}.

Definition py_in (value : Z) (l : list Z) : bool := existsb (Z.eqb value) l.

Definition averaged_measurements : M Z := _raw_averaged_measurements.

Definition set_averaged_measurements (value : Z) : M unit :=
  if negb (py_in value [0; 1; 2; 3]) then raise ValueError
  else Bits_set 2 _CONFIGURATION 5 value.

Definition measurement_mode : M Z := _mode.

Definition set_measurement_mode (fuel : nat) (value : Z) : M unit :=
  _set_mode_and_wait_for_measurement fuel value ;;; ret tt.

Definition measurement_delay : M Z := _raw_measurement_delay.

Definition set_measurement_delay (value : Z) : M unit :=
  if negb (py_in value [0; 1; 2; 3; 4; 5; 6; 7]) then raise ValueError
  else Bits_set 3 _CONFIGURATION 7 value.

Definition take_single_measurement (fuel : nat) : M float :=
  _set_mode_and_wait_for_measurement fuel _ONE_SHOT_MODE.

Definition alert_mode : M bool := _raw_alert_mode.

Definition set_alert_mode (value : Z) : M unit :=
  if negb (py_in value [0; 1]) then raise ValueError
  else Bit_set _CONFIGURATION 4 (negb (value =? 0)).

Definition serial_number : M (list byte) :=
  eeprom1_data <- write_then_readinto [_EEPROM1] ;;
  eeprom2_data <- write_then_readinto [_EEPROM2] ;;
  eeprom3_data <- write_then_readinto [_EEPROM3] ;;
  ret [fst eeprom1_data; snd eeprom1_data;
       fst eeprom2_data; snd eeprom2_data;
       fst eeprom3_data; snd eeprom3_data].

End Driver.

Arguments world device : clear implicits.
Arguments M device A : clear implicits.

(** ** What the spec says of [initialize]

    Follows the spec's words, for comparison with [initialize] above:
    "calls reset(), then setModeAndAwaitMeasurement(CONTINUOUS), then an
    additional fixed 1-second delay". *)
Definition initialize_as_specified {device : Type} `{I2CTarget device}
    (fuel : nat) : M device unit :=
  bind reset (fun _ =>
  bind (_set_mode_and_wait_for_measurement fuel _CONTINUOUS_CONVERSION_MODE) (fun _ =>
  time_sleep (PyFloat.of_int 1))).

(** ** Bounded quantification

    All [n]-bit patterns, by halving; used to check a property of every
    16-bit register value by evaluation. *)
Fixpoint all_bits (n : nat) (p : Z -> bool) (acc : Z) : bool :=
  match n with
  | O => p acc
  | S k => all_bits k p (2 * acc) && all_bits k p (2 * acc + 1)
  end.

Definition int16_forall (p : Z -> bool) : bool :=
  all_bits 16 (fun u => p (u - 32768)) 0.

(** The integer literals [256] and [-256] of the range test, as floats. *)
Definition float_256 : float := S754_finite false 4503599627370496 (-44).
Definition float_minus_256 : float := S754_finite true 4503599627370496 (-44).

(** Checked by evaluation over the whole signed 16-bit range: the scaled
    reading is the exact rational [r / 128]; it is zero or a normal float
    inside the accepted range; and the float of the same mantissa seven
    binary places up truncates to [r]. *)
Definition conversion_ok (r : Z) : bool :=
  let c := raw_to_celsius r in
  match PyFloat.exact c with
  | Some q => Qeq_bool q (inject_Z r * (1 # 128))
  | None => false
  end
  &&
  match c with
  | S754_zero _ => r =? 0
  | S754_finite s m e =>
      (digits2_pos m =? 53)%positive && (-1074 <=? e)
      && negb (SFltb float_256 c) && negb (SFltb c float_minus_256)
      && match PyFloat.to_int (S754_finite s m (e + 7)) with
         | Ret r' => r' =? r
         | _ => false
         end
  | _ => false
  end.

(** The word a bit-field write sends back for a register read as [c], and
    what it has to satisfy: the field holds [value], the bits above and
    below the field are those of [c]. *)
Definition written_word (num_bits lowest_bit value : Z) (c : byte * byte) : byte * byte :=
  let reg := Z.lor (Z.land (register_word c) (Z.lnot (bit_mask num_bits lowest_bit)))
                   (Z.shiftl value lowest_bit) in
  (byte_of_int (Z.land (Z.shiftr reg 8) 255), byte_of_int (Z.land reg 255)).

Definition field_write_ok (num_bits lowest_bit value : Z) (c : byte * byte) : bool :=
  let old := unpack_H (fst c) (snd c) in
  let c' := written_word num_bits lowest_bit value c in
  let new := unpack_H (fst c') (snd c') in
  (Z.land (Z.shiftr new lowest_bit) (Z.ones num_bits) =? value)
  && (Z.shiftr new (lowest_bit + num_bits) =? Z.shiftr old (lowest_bit + num_bits))
  && (Z.land new (Z.ones lowest_bit) =? Z.land old (Z.ones lowest_bit)).

(** The word [reset] sends back for a configuration word read as [c]. *)
Definition reset_word (c : byte * byte) : byte * byte :=
  Bit_put 1 c (byte_of_int (Z.lor (byte_val (Bit_pick 1 c)) (Z.shiftl 1 (1 mod 8)))).

Definition reset_word_ok (c : byte * byte) : bool :=
  let old := unpack_H (fst c) (snd c) in
  let c' := reset_word c in
  let new := unpack_H (fst c') (snd c') in
  Z.testbit new 1 && (new =? (if Z.testbit old 1 then old else old + 2)).

(** ** Reading the trace *)

(** The three status flags in a configuration word as received, and the
    data-ready flag among them, computed as [_read_status] does. *)
Definition status_flags_of (bs : byte * byte) : Z :=
  Z.shiftr (Z.land (register_word bs) (bit_mask 3 13)) 13.

Definition data_ready_of (bs : byte * byte) : bool :=
  Z.land 1 (status_flags_of bs) >? 0.

Definition status_flags_ok (c : byte * byte) : bool :=
  status_flags_of c =? Z.shiftr (unpack_H (fst c) (snd c)) 13.

Definition config_read (bs : byte * byte) : event :=
  WriteThenReadInto [_CONFIGURATION] [fst bs; snd bs].

(** One unsuccessful turn of the polling loop per configuration word. *)
Definition wait_events (waits : list (byte * byte)) : list event :=
  flat_map (fun bs => [config_read bs; Sleep float_0_001]) waits.

(** Big-endian value of a byte string. *)
Definition int_from_bytes (l : list byte) : Z :=
  fold_left (fun acc b => acc * 256 + byte_val b) l 0.

(** ** A bench stand-in for the sensor

    A register file with the TMP117's conversion timing reduced to a count
    of status reads that still find the conversion running; the data-ready
    flag (bit 13, bit 5 of the first byte) is reported accordingly. *)
Record bench : Type := {
  registers : list (byte * (byte * byte));
  conversions_running : nat
}.

Fixpoint bench_lookup (regs : list (byte * (byte * byte))) (r : byte) : byte * byte :=
  match regs with
  | [] => (x00, x00)
  | (r', v) :: rest => if Byte.eqb r r' then v else bench_lookup rest r
  end.

Definition with_data_ready (ready : bool) (bs : byte * byte) : byte * byte :=
  let hi := byte_val (fst bs) in
  (byte_of_int (if ready then Z.lor hi 32 else Z.land hi (Z.lnot 32)), snd bs).

Definition bench_read (b : bench) (out : list byte) : (byte * byte) * bench :=
  match out with
  | [r] =>
      if Byte.eqb r _CONFIGURATION then
        (with_data_ready (Nat.eqb (conversions_running b) 0)
           (bench_lookup (registers b) r),
         {| registers := registers b;
            conversions_running := Nat.pred (conversions_running b) |})
      else (bench_lookup (registers b) r, b)
  | _ => ((x00, x00), b)
  end.

Definition bench_write (b : bench) (buffer : list byte) : bench :=
  match buffer with
  | [r; b1; b2] =>
      {| registers := (r, (b1, b2)) :: registers b;
         conversions_running := conversions_running b |}
  | _ => b
  end.

#[export] Instance bench_target : I2CTarget bench := {
  target_read := bench_read;
  target_write := bench_write;
  target_idle := fun b _ => b
}.

(** A sensor after power-on: device id 0x0117, default configuration word
    0x0220, a reading of 128 counts, serial-number words 0xAABB, 0xCCDD,
    0xEEFF; [overrides] replace register contents. *)
Definition bench_registers : list (byte * (byte * byte)) :=
  [ (_TEMP_RESULT, (x00, x80));
    (_CONFIGURATION, (x02, x20));
    (_T_HIGH_LIMIT, (x60, x00));
    (_T_LOW_LIMIT, (x80, x00));
    (_EEPROM1, (xaa, xbb));
    (_EEPROM2, (xcc, xdd));
    (_TEMP_OFFSET, (x00, x00));
    (_EEPROM3, (xee, xff));
    (_DEVICE_ID, (x01, x17)) ].

Definition bench_world (overrides : list (byte * (byte * byte))) (running : nat)
    : world bench :=
  {| hw := {| registers := overrides ++ bench_registers;
              conversions_running := running |};
     trace := [] |}.

(** ** Vocabulary of the further properties *)

(** The word a single-bit write sends back for a register read as [c]. *)
Definition bit_written_word (bit : Z) (value : bool) (c : byte * byte) : byte * byte :=
  Bit_put bit c
    (byte_of_int
       (if value
        then Z.lor (byte_val (Bit_pick bit c)) (Z.shiftl 1 (bit mod 8))
        else Z.land (byte_val (Bit_pick bit c)) (Z.lnot (Z.shiftl 1 (bit mod 8))))).

(** A device that answers a read of [register] with the two bytes last
    written to it. *)
Definition reads_back {device : Type} `{I2CTarget device} (d : device) (register : byte) : Prop :=
  forall b1 b2 : byte,
    fst (target_read (target_write d [register; b1; b2]) [register]) = (b1, b2).

(** What every scaled getter does: one read of its register, the count
    decoded as a signed big-endian word, and the float returned standing
    for exactly count / 128, between -256 and 255.9921875. *)
Definition reads_and_scales {device : Type} `{I2CTarget device}
    (getter : M device float) (register : byte) : Prop :=
  forall (w : world device) (bs : byte * byte) (d : device),
    target_read (hw w) [register] = (bs, d) ->
    let r := unpack_h (fst bs) (snd bs) in
    getter w =
      (Ret (raw_to_celsius r),
       {| hw := d;
          trace := trace w ++ [WriteThenReadInto [register] [fst bs; snd bs]] |}) /\
    exists q, PyFloat.exact (raw_to_celsius r) = Some q /\
              (q == inject_Z r * (1 # 128))%Q /\
              (-256 <= q)%Q /\ (q <= 32767 # 128)%Q.

(** The integer part of a rational, toward zero. *)
Definition Qtrunc (q : Q) : Z := Z.quot (Qnum q) (Z.pos (Qden q)).

(** The device after [n] unsuccessful turns of the polling loop: a status
    read and a sleep of 1 ms each. *)
Fixpoint after_waits {device : Type} `{I2CTarget device} (n : nat) (d : device)
    : device :=
  match n with
  | O => d
  | S k =>
      after_waits k
        (target_idle (snd (target_read d [_CONFIGURATION])) float_0_001)
  end.

(** A device that answers every read with zeros, as a sensor that never
    completes a conversion does for the data-ready flag. *)
Record silent : Type := { writes_seen : nat }.

#[export] Instance silent_target : I2CTarget silent := {
  target_read := fun d _ => ((x00, x00), d);
  target_write := fun d _ => {| writes_seen := S (writes_seen d) |};
  target_idle := fun d _ => d
}.

(** * Properties *)

(** ** Bytes and words *)

Lemma byte_val_range (b : byte) : 0 <= byte_val b < 256.
Proof.
  unfold byte_val. pose proof (Byte.to_N_bounded b). lia.
Qed.

Lemma byte_of_int_val (b : byte) : byte_of_int (byte_val b) = b.
Proof.
  unfold byte_of_int.
  replace (Z.land (byte_val b) 255) with (byte_val b).
  - unfold byte_val. rewrite N2Z.id, Byte.of_to_N. reflexivity.
  - change 255 with (Z.ones 8). rewrite Z.land_ones by lia.
    symmetry. apply Z.mod_small. pose proof (byte_val_range b). lia.
Qed.

Lemma byte_of_int_low (a : Z) (b : byte) :
  byte_of_int (a * 256 + byte_val b) = b.
Proof.
  rewrite <- (byte_of_int_val b) at 2. unfold byte_of_int.
  change 255 with (Z.ones 8). rewrite !Z.land_ones by lia.
  change (2 ^ 8) with 256.
  rewrite Z.add_comm, Z.mod_add by lia. reflexivity.
Qed.

Lemma unpack_H_range (b1 b2 : byte) : 0 <= unpack_H b1 b2 < 65536.
Proof.
  unfold unpack_H.
  pose proof (byte_val_range b1). pose proof (byte_val_range b2). lia.
Qed.

Lemma unpack_h_range (b1 b2 : byte) : -32768 <= unpack_h b1 b2 <= 32767.
Proof.
  unfold unpack_h. pose proof (unpack_H_range b1 b2).
  destruct (32768 <=? unpack_H b1 b2) eqn:E;
    [apply Z.leb_le in E | apply Z.leb_gt in E]; lia.
Qed.

Lemma all_bits_spec (n : nat) (p : Z -> bool) :
  forall acc, all_bits n p acc = true ->
  forall z, 0 <= z < 2 ^ Z.of_nat n -> p (acc * 2 ^ Z.of_nat n + z) = true.
Proof.
  induction n as [|k IH]; intros acc Hall z Hz.
  - simpl in *. replace (acc * 1 + z) with acc by lia. exact Hall.
  - cbn [all_bits] in Hall. apply andb_true_iff in Hall as [H0 H1].
    rewrite Nat2Z.inj_succ, Z.pow_succ_r in * by lia.
    destruct (Z_lt_le_dec z (2 ^ Z.of_nat k)) as [Hlo|Hhi].
    + replace (acc * (2 * 2 ^ Z.of_nat k) + z)
        with (2 * acc * 2 ^ Z.of_nat k + z) by ring.
      apply IH; [exact H0 | lia].
    + replace (acc * (2 * 2 ^ Z.of_nat k) + z)
        with ((2 * acc + 1) * 2 ^ Z.of_nat k + (z - 2 ^ Z.of_nat k)) by ring.
      apply IH; [exact H1 | lia].
Qed.

Lemma word16_forall_spec (p : Z -> bool) :
  all_bits 16 p 0 = true -> forall u, 0 <= u < 65536 -> p u = true.
Proof.
  intros Hall u Hu.
  apply (all_bits_spec 16 p 0 Hall u). exact Hu.
Qed.

Lemma int16_forall_spec (p : Z -> bool) :
  int16_forall p = true -> forall r, -32768 <= r <= 32767 -> p r = true.
Proof.
  intros Hall r Hr. unfold int16_forall in Hall.
  pose proof (word16_forall_spec _ Hall (r + 32768)) as Hp.
  cbv beta in Hp.
  replace (r + 32768 - 32768) with r in Hp by lia.
  apply Hp. lia.
Qed.

(** Every pair of received bytes is the split of its own 16-bit value, so a
    property checked on all 16-bit values holds of all pairs. *)
Lemma byte_pair_forall_spec (p : byte * byte -> bool) :
  all_bits 16 (fun u => p (byte_of_int (Z.shiftr u 8), byte_of_int u)) 0 = true ->
  forall bs, p bs = true.
Proof.
  intros Hall [b1 b2].
  pose proof (word16_forall_spec _ Hall (unpack_H b1 b2) (unpack_H_range b1 b2)) as Hp.
  cbv beta in Hp. unfold unpack_H in Hp.
  rewrite byte_of_int_low in Hp.
  rewrite Z.shiftr_div_pow2 in Hp by lia. change (2 ^ 8) with 256 in Hp.
  rewrite Z.div_add_l in Hp by lia.
  rewrite (Z.div_small (byte_val b2)) in Hp by apply byte_val_range.
  rewrite Z.add_0_r, byte_of_int_val in Hp. exact Hp.
Qed.

Lemma register_word_unpack_H (bs : byte * byte) :
  register_word bs = unpack_H (fst bs) (snd bs).
Proof.
  apply Z.eqb_eq.
  apply (byte_pair_forall_spec
           (fun bs => register_word bs =? unpack_H (fst bs) (snd bs))).
  vm_compute. reflexivity.
Qed.

(** ** Unit conversion *)

(** Binary digits, shifts and the division by 2^52. *)
Lemma digits2_pos_log2 (p : positive) :
  Z.pos (digits2_pos p) = Z.log2 (Z.pos p) + 1.
Proof.
  assert (Hsize : forall q, digits2_pos q = Pos.size q)
    by (induction q; cbn; congruence).
  rewrite Hsize.
  destruct p; cbn [Z.log2 Pos.size]; rewrite ?Pos2Z.inj_succ; lia.
Qed.

Lemma shiftl_pos (m : positive) (j : Z) :
  0 <= j -> exists p, Z.shiftl (Z.pos m) j = Z.pos p.
Proof.
  intros Hj.
  assert (0 < Z.shiftl (Z.pos m) j)
    by (rewrite Z.shiftl_mul_pow2 by lia;
        apply Z.mul_pos_pos; [lia | apply Z.pow_pos_nonneg; lia]).
  destruct (Z.shiftl (Z.pos m) j) as [|p|p]; try lia. exists p. reflexivity.
Qed.

Lemma Zdigits2_shiftl (m : positive) (j : Z) :
  0 <= j -> Zdigits2 (Z.shiftl (Z.pos m) j) = Z.pos (digits2_pos m) + j.
Proof.
  intros Hj. destruct (shiftl_pos m j Hj) as [p Hp].
  rewrite Hp. cbn [Zdigits2]. rewrite !digits2_pos_log2, <- Hp.
  rewrite Z.log2_shiftl by lia. lia.
Qed.

Lemma div_eucl_shiftl (m : positive) (k : Z) :
  52 <= k ->
  Z.div_eucl (Z.shiftl (Z.pos m) k) 4503599627370496
  = (Z.shiftl (Z.pos m) (k - 52), 0).
Proof.
  intros Hk.
  assert (Hm : Z.shiftl (Z.pos m) k
               = Z.shiftl (Z.pos m) (k - 52) * 4503599627370496).
  { rewrite !Z.shiftl_mul_pow2 by lia.
    change 4503599627370496 with (2 ^ 52).
    rewrite <- Z.mul_assoc, <- Z.pow_add_r by lia.
    f_equal. f_equal. lia. }
  pose proof (Z.div_eucl_eq (Z.shiftl (Z.pos m) k) 4503599627370496
                ltac:(discriminate)) as Heq.
  pose proof (Z.mod_pos_bound (Z.shiftl (Z.pos m) k) 4503599627370496
                ltac:(reflexivity)) as Hb.
  unfold Z.modulo in Hb.
  destruct (Z.div_eucl (Z.shiftl (Z.pos m) k) 4503599627370496) as [q r].
  rewrite Hm in Heq.
  assert (q = Z.shiftl (Z.pos m) (k - 52)) by nia. subst q.
  assert (r = 0) by lia. subst r. reflexivity.
Qed.

Lemma shr_one_shiftl (m : positive) (j e : Z) :
  1 <= j ->
  shr {| shr_m := Z.shiftl (Z.pos m) j; shr_r := false; shr_s := false |} e 1
  = ({| shr_m := Z.shiftl (Z.pos m) (j - 1); shr_r := false; shr_s := false |},
     e + 1).
Proof.
  intros Hj. destruct (shiftl_pos m (j - 1) ltac:(lia)) as [p Hp].
  assert (Hdouble : Z.shiftl (Z.pos m) j = Z.pos p~0).
  { replace j with ((j - 1) + 1) at 1 by lia.
    rewrite <- Z.shiftl_shiftl, Hp by lia. reflexivity. }
  rewrite Hdouble, Hp. reflexivity.
Qed.

Lemma digits2_pos_bound (m : positive) :
  2 ^ (Z.pos (digits2_pos m) - 1) <= Z.pos m < 2 ^ Z.pos (digits2_pos m).
Proof.
  rewrite digits2_pos_log2.
  pose proof (Z.log2_spec (Z.pos m) ltac:(lia)) as Hs.
  replace (Z.log2 (Z.pos m) + 1 - 1) with (Z.log2 (Z.pos m)) by lia.
  replace (Z.log2 (Z.pos m) + 1) with (Z.succ (Z.log2 (Z.pos m))) by lia.
  exact Hs.
Qed.

Lemma shiftl_bound (m : positive) (j k : Z) :
  0 <= j -> Z.pos (digits2_pos m) + j <= k ->
  0 < Z.shiftl (Z.pos m) j < 2 ^ k.
Proof.
  intros Hj Hk. pose proof (digits2_pos_bound m) as [_ Hm].
  rewrite Z.shiftl_mul_pow2 by lia.
  assert (0 < 2 ^ j) by (apply Z.pow_pos_nonneg; lia).
  split; [nia|].
  apply Z.lt_le_trans with (2 ^ Z.pos (digits2_pos m) * 2 ^ j); [nia|].
  rewrite <- Z.pow_add_r by lia. apply Z.pow_le_mono_r; lia.
Qed.

Lemma to_int_tiny (s : bool) (m : positive) (e : Z) :
  e < 0 -> Z.pos m < 2 ^ (- e) ->
  PyFloat.to_int (S754_finite s m e) = Ret 0.
Proof.
  intros He Hm. unfold PyFloat.to_int.
  destruct e as [|p|p]; try lia.
  rewrite Z.shiftr_div_pow2 by lia.
  change (- Z.neg p) with (Z.pos p) in Hm.
  rewrite Z.div_small by lia. destruct s; reflexivity.
Qed.

(** A subnormal float divided by the resolution: still exact, the mantissa
    shifted left as far as the exponent range requires, and still far
    below one count. *)
Lemma SFdiv_subnormal_by_resolution (s : bool) (m : positive) :
  (digits2_pos m < 53)%positive ->
  exists m' e',
    SFdiv PyFloat.prec PyFloat.emax (S754_finite s m (-1074)) _TMP117_RESOLUTION
    = S754_finite s m' e' /\
    PyFloat.to_int (S754_finite s m' e') = Ret 0.
Proof.
  intros Hd. remember (Z.pos (digits2_pos m)) as d eqn:Ed.
  assert (Hdr : 1 <= d <= 52) by lia.
  unfold _TMP117_RESOLUTION, SFdiv, SFdiv_core_binary.
  cbn [Zdigits2]. rewrite <- Ed.
  change (Zpos (digits2_pos 4503599627370496)) with 53.
  unfold fexp, emin, PyFloat.prec, PyFloat.emax.
  rewrite xorb_false_r.
  set (e1 := IntDef.Z.min
               (IntDef.Z.max (d + -1074 - (53 + -59) - 53) (3 - 1024 - 53))
               (-1074 - -59)).
  set (k := -1074 - -59 - e1).
  destruct (Z_le_gt_dec d 46) as [Hsmall|Hlarge].
  - (* seven more bits fit: no shift back *)
    assert (He1 : e1 = -1074) by (unfold e1; lia).
    assert (Hk : k = 59) by (unfold k; lia).
    rewrite Hk. cbv iota.
    change (IntDef.Z.div_eucl (IntDef.Z.shiftl (Z.pos m) 59) 4503599627370496)
      with (Z.div_eucl (Z.shiftl (Z.pos m) 59) 4503599627370496).
    rewrite div_eucl_shiftl by lia.
    change (new_location 4503599627370496 0) with loc_Exact.
    change (59 - 52) with 7. rewrite He1.
    unfold binary_round_aux, shr_fexp.
    rewrite Zdigits2_shiftl by lia. rewrite <- Ed.
    unfold fexp, emin. cbn [shr_record_of_loc].
    replace (Z.max (d + 7 + -1074 - 53) (3 - 1024 - 53) - -1074) with 0 by lia.
    cbn [shr shr_m loc_of_shr_record round_nearest_even orb].
    rewrite Zdigits2_shiftl by lia. rewrite <- Ed.
    replace (Z.max (d + 7 + -1074 - 53) (3 - 1024 - 53) - -1074) with 0 by lia.
    cbn [shr shr_m].
    destruct (shiftl_pos m 7 ltac:(lia)) as [p Hp]. rewrite Hp.
    exists p, (-1074). split; [reflexivity|].
    apply to_int_tiny; [lia|]. rewrite <- Hp.
    apply (shiftl_bound m 7 (- -1074)); lia.
  - (* the quotient has 54 bits: one shift back *)
    assert (He1 : e1 = d - 1121) by (unfold e1; lia).
    assert (Hk : k = 106 - d) by (unfold k; lia).
    rewrite Hk.
    destruct (106 - d) as [|kp|kp] eqn:Ekp; try lia. rewrite <- Ekp.
    change (IntDef.Z.div_eucl (IntDef.Z.shiftl (Z.pos m) (106 - d)) 4503599627370496)
      with (Z.div_eucl (Z.shiftl (Z.pos m) (106 - d)) 4503599627370496).
    rewrite div_eucl_shiftl by lia.
    change (new_location 4503599627370496 0) with loc_Exact.
    rewrite He1.
    unfold binary_round_aux, shr_fexp.
    rewrite Zdigits2_shiftl by lia. rewrite <- Ed.
    unfold fexp, emin. cbn [shr_record_of_loc].
    replace (Z.max (d + (106 - d - 52) + (d - 1121) - 53) (3 - 1024 - 53) - (d - 1121))
      with 1 by lia.
    rewrite shr_one_shiftl by lia.
    cbn [shr_m loc_of_shr_record round_nearest_even orb].
    rewrite Zdigits2_shiftl by lia. rewrite <- Ed.
    replace (Z.max (d + (106 - d - 52 - 1) + (d - 1121 + 1) - 53) (3 - 1024 - 53)
             - (d - 1121 + 1)) with 0 by lia.
    cbn [shr shr_m].
    destruct (shiftl_pos m (106 - d - 52 - 1) ltac:(lia)) as [p Hp]. rewrite Hp.
    exists p, (d - 1121 + 1).
    split; [destruct (Z.leb_spec (d - 1121 + 1) (1024 - 53)); [reflexivity | lia]|].
    apply to_int_tiny; [lia|]. rewrite <- Hp.
    apply (shiftl_bound m (106 - d - 52 - 1) (- (d - 1121 + 1))); lia.
Qed.

(** Dividing a normal float by the resolution 2^-7 moves its exponent up
    by seven and leaves the mantissa alone: the quotient is exact. *)
Lemma SFdiv_by_resolution (s : bool) (m : positive) (e : Z) :
  digits2_pos m = 53%positive -> -1080 <= e <= 964 ->
  SFdiv PyFloat.prec PyFloat.emax (S754_finite s m e) _TMP117_RESOLUTION
  = S754_finite s m (e + 7).
Proof.
  intros Hd He.
  unfold _TMP117_RESOLUTION, SFdiv, SFdiv_core_binary.
  cbn [Zdigits2]. rewrite Hd.
  change (Zpos (digits2_pos 4503599627370496)) with 53.
  unfold fexp, emin, PyFloat.prec, PyFloat.emax.
  replace (Z.min (Z.max (53 + e - (53 + -59) - 53) (3 - 1024 - 53)) (e - -59))
    with (e + 6) by lia.
  replace (e - -59 - (e + 6)) with 53 by lia.
  change (IntDef.Z.div_eucl (IntDef.Z.shiftl (Z.pos m) 53) 4503599627370496)
    with (Z.div_eucl (Z.shiftl (Z.pos m) 53) 4503599627370496).
  assert (Hq : Z.div_eucl (Z.shiftl (Z.pos m) 53) 4503599627370496
               = (Z.pos m~0, 0)).
  { assert (Hm : Z.shiftl (Z.pos m) 53 = Z.pos m~0 * 4503599627370496).
    { rewrite Z.shiftl_mul_pow2 by lia. rewrite (Pos2Z.inj_xO m).
      change (2 ^ 53) with (2 * 4503599627370496). ring. }
    pose proof (Z.div_eucl_eq (Z.shiftl (Z.pos m) 53) 4503599627370496
                  ltac:(discriminate)) as Heq.
    pose proof (Z.mod_pos_bound (Z.shiftl (Z.pos m) 53) 4503599627370496
                  ltac:(reflexivity)) as Hb.
    unfold Z.modulo in Hb.
    destruct (Z.div_eucl (Z.shiftl (Z.pos m) 53) 4503599627370496) as [q r].
    rewrite Hm in Heq.
    assert (q = Z.pos m~0) by nia. subst q.
    assert (r = 0) by lia. subst r. reflexivity. }
  rewrite Hq.
  change (new_location 4503599627370496 0) with loc_Exact.
  rewrite xorb_false_r.
  unfold binary_round_aux, shr_fexp.
  change (Zdigits2 (Z.pos m~0)) with (Z.pos (Pos.succ (digits2_pos m))).
  cbn [shr_record_of_loc]. rewrite Hd.
  change (Z.pos (Pos.succ 53)) with 54.
  unfold fexp, emin.
  replace (Z.max (54 + (e + 6) - 53) (3 - 1024 - 53) - (e + 6)) with 1 by lia.
  cbn [shr iter_pos shr_1 shr_m loc_of_shr_record round_nearest_even orb].
  cbn [Zdigits2]. rewrite Hd.
  replace (Z.max (53 + (e + 6 + 1) - 53) (3 - 1024 - 53) - (e + 6 + 1)) with 0 by lia.
  cbn [shr shr_m shr_record_of_loc].
  replace (e + 6 + 1) with (e + 7) by lia.
  destruct (Z.leb_spec (e + 7) (1024 - 53)); [reflexivity | lia].
Qed.

(** Values the guard of [_scaled_limit] rejects never reach the division. *)
Lemma scaled_limit_guard (value : float) :
  PyFloat.gt value (PyFloat.of_int 256) = true \/
  PyFloat.lt value (PyFloat.of_int (-256)) = true ->
  _scaled_limit value = Raise ValueError.
Proof.
  intros [Hgt|Hlt]; unfold _scaled_limit.
  - rewrite Hgt. reflexivity.
  - rewrite Hlt, orb_true_r. reflexivity.
Qed.

Lemma guard_bounds_exponent (s : bool) (m : positive) (e : Z) :
  SFltb float_256 (S754_finite s m e) = false ->
  SFltb (S754_finite s m e) float_minus_256 = false ->
  e <= -44.
Proof.
  unfold SFltb, SFcompare, float_256, float_minus_256.
  destruct s; intros Hhi Hlo.
  - destruct (Z.compare_spec e (-44)); lia || discriminate Hlo.
  - destruct (Z.compare_spec (-44) e); lia || discriminate Hhi.
Qed.

(** Inside the accepted range a normal float is never refused and never
    fails: the result is the truncation of the exactly scaled value. *)
Lemma scaled_limit_normal (s : bool) (m : positive) (e : Z) :
  digits2_pos m = 53%positive -> -1074 <= e ->
  SFltb float_256 (S754_finite s m e) = false ->
  SFltb (S754_finite s m e) float_minus_256 = false ->
  _scaled_limit (S754_finite s m e) = PyFloat.to_int (S754_finite s m (e + 7)) /\
  exists n, _scaled_limit (S754_finite s m e) = Ret n.
Proof.
  intros Hd He Hhi Hlo.
  pose proof (guard_bounds_exponent s m e Hhi Hlo) as Hle.
  assert (Hrun : _scaled_limit (S754_finite s m e)
                 = PyFloat.to_int (S754_finite s m (e + 7))).
  { unfold _scaled_limit, PyFloat.gt, PyFloat.lt.
    change (PyFloat.of_int 256) with float_256.
    change (PyFloat.of_int (-256)) with float_minus_256.
    rewrite Hhi, Hlo. cbn [orb].
    unfold PyFloat.truediv. cbn [PyFloat.is_zero _TMP117_RESOLUTION].
    rewrite SFdiv_by_resolution by (assumption || lia).
    reflexivity. }
  split; [exact Hrun|]. rewrite Hrun. cbn [PyFloat.to_int]. eexists. reflexivity.
Qed.

Lemma scaled_limit_normal_witness :
  _scaled_limit (S754_finite false 7036874417766400 (-48)) = Ret 3200.
Proof.
  destruct (scaled_limit_normal false 7036874417766400 (-48)
              eq_refl ltac:(lia) eq_refl eq_refl) as [Hrun _].
  rewrite Hrun. reflexivity.
Defined.

Lemma scaled_limit_zero (s : bool) : _scaled_limit (S754_zero s) = Ret 0.
Proof. destruct s; reflexivity. Qed.

(** X1: the whole error behaviour of [_scaled_limit] on binary64 values.
    A value is refused with ValueError when it compares above 256 or below
    -256 (the infinities included); NaN passes the range test and fails in
    [int], again with ValueError; every other value, 256.0 and -256.0
    included, yields a count: no division error, no overflow. *)
Lemma scaled_limit_total (v : float) :
  PyFloat.valid v = true ->
  if PyFloat.gt v (PyFloat.of_int 256) || PyFloat.lt v (PyFloat.of_int (-256))
  then _scaled_limit v = Raise ValueError
  else match v with
       | S754_nan => _scaled_limit v = Raise ValueError
       | _ => exists n, _scaled_limit v = Ret n
       end.
Proof.
  intros Hvalid.
  destruct (PyFloat.gt v (PyFloat.of_int 256) || PyFloat.lt v (PyFloat.of_int (-256)))
    eqn:Hguard.
  - apply scaled_limit_guard. apply orb_true_iff. exact Hguard.
  - destruct v as [s|s| |s m e].
    + exists 0. destruct s; reflexivity.
    + destruct s; discriminate Hguard.
    + reflexivity.
    + apply orb_false_elim in Hguard as [Hhi Hlo].
      unfold PyFloat.gt, PyFloat.lt in Hhi, Hlo.
      change (PyFloat.of_int 256) with float_256 in Hhi.
      change (PyFloat.of_int (-256)) with float_minus_256 in Hlo.
      unfold PyFloat.valid, valid_binary, bounded, canonical_mantissa in Hvalid.
      apply andb_true_iff in Hvalid as [Hcanon _].
      apply Z.eqb_eq in Hcanon. unfold fexp, emin, PyFloat.prec, PyFloat.emax in Hcanon.
      destruct (Pos.eq_dec (digits2_pos m) 53) as [Hnormal|Hsub].
      * apply (scaled_limit_normal s m e Hnormal); [lia | exact Hhi | exact Hlo].
      * assert (He : e = -1074) by lia. subst e.
        assert (Hd : (digits2_pos m < 53)%positive) by lia.
        destruct (SFdiv_subnormal_by_resolution s m Hd) as (m' & e' & Hdiv & _).
        unfold _scaled_limit, PyFloat.gt, PyFloat.lt.
        change (PyFloat.of_int 256) with float_256.
        change (PyFloat.of_int (-256)) with float_minus_256.
        rewrite Hhi, Hlo. cbn [orb].
        unfold PyFloat.truediv. cbn [PyFloat.is_zero _TMP117_RESOLUTION].
        fold _TMP117_RESOLUTION. rewrite Hdiv. cbn [PyFloat.to_int].
        eexists. reflexivity.
Qed.

Lemma conversions_checked : int16_forall conversion_ok = true.
Proof. vm_cast_no_check (eq_refl true). Qed.

Lemma conversion_ok_inv (r : Z) :
  -32768 <= r <= 32767 ->
  (exists q, PyFloat.exact (raw_to_celsius r) = Some q /\
             (q == inject_Z r * (1 # 128))%Q) /\
  _scaled_limit (raw_to_celsius r) = Ret r.
Proof.
  intros Hr.
  pose proof (int16_forall_spec _ conversions_checked r Hr) as Hok.
  unfold conversion_ok in Hok. cbv zeta in Hok.
  apply andb_true_iff in Hok as [Hexact Hshape].
  split.
  - destruct (PyFloat.exact (raw_to_celsius r)) as [q|]; [|discriminate].
    exists q. split; [reflexivity | apply Qeq_bool_iff; exact Hexact].
  - destruct (raw_to_celsius r) as [s| | |s m e]; try discriminate.
    + apply Z.eqb_eq in Hshape. subst r. apply scaled_limit_zero.
    + repeat (apply andb_true_iff in Hshape as [Hshape ?]).
      destruct (scaled_limit_normal s m e) as [Hrun _].
      * apply Pos.eqb_eq. assumption.
      * apply Z.leb_le. assumption.
      * apply negb_true_iff. assumption.
      * apply negb_true_iff. assumption.
      * rewrite Hrun.
        destruct (PyFloat.to_int (S754_finite s m (e + 7))) as [r'| |];
          try discriminate.
        f_equal. apply Z.eqb_eq. assumption.
Qed.

Lemma raw_to_celsius_exact (r : Z) :
  -32768 <= r <= 32767 ->
  exists q, PyFloat.exact (raw_to_celsius r) = Some q /\
            (q == inject_Z r * (1 # 128))%Q.
Proof. intros Hr. apply (conversion_ok_inv r Hr). Qed.

Lemma raw_to_celsius_128 : raw_to_celsius 128 = PyFloat.of_int 1.
Proof. vm_compute. reflexivity. Qed.

(** C3: for every signed 16-bit raw count r, scaling r to Celsius and
    passing the result back through [_scaled_limit] returns r itself. *)
Theorem scaled_limit_inverts_raw_to_celsius (r : Z) :
  -32768 <= r <= 32767 ->
  _scaled_limit (raw_to_celsius r) = Ret r.
Proof. intros Hr. apply (conversion_ok_inv r Hr). Qed.

Lemma scaled_limit_inverts_raw_to_celsius_witness :
  -32768 <= -32768 <= 32767 /\ _scaled_limit (raw_to_celsius (-32768)) = Ret (-32768).
Proof.
  split; [lia | apply (scaled_limit_inverts_raw_to_celsius (-32768)); lia].
Defined.

(** ** Running the bus primitives and the register descriptors *)

Section DriverFacts.

Context {device : Type} `{I2CTarget device}.

Lemma bind_Ret {A B} (c : M device A) (k : A -> M device B) w a w' :
  c w = (Ret a, w') -> bind c k w = k a w'.
Proof. intros E. unfold bind. rewrite E. reflexivity. Qed.

Lemma bind_Raise {A B} (c : M device A) (k : A -> M device B) w e w' :
  c w = (Raise e, w') -> bind c k w = (Raise e, w').
Proof. intros E. unfold bind. rewrite E. reflexivity. Qed.

Lemma bind_Pending {A B} (c : M device A) (k : A -> M device B) w w' :
  c w = (Pending, w') -> bind c k w = (Pending, w').
Proof. intros E. unfold bind. rewrite E. reflexivity. Qed.

Lemma write_then_readinto_run (out : list byte) (w : world device) bs d :
  target_read (hw w) out = (bs, d) ->
  write_then_readinto out w =
    (Ret bs, {| hw := d;
                trace := trace w ++ [WriteThenReadInto out [fst bs; snd bs]] |}).
Proof. intros E. unfold write_then_readinto. rewrite E. reflexivity. Qed.

Lemma time_sleep_run (seconds : float) (w : world device) :
  time_sleep seconds w =
    (Ret tt, {| hw := target_idle (hw w) seconds;
                trace := trace w ++ [Sleep seconds] |}).
Proof. reflexivity. Qed.

Lemma UnaryStruct_get_run (address : byte) unpack (w : world device) bs d :
  target_read (hw w) [address] = (bs, d) ->
  UnaryStruct_get address unpack w =
    (Ret (unpack (fst bs) (snd bs)),
     {| hw := d;
        trace := trace w ++ [WriteThenReadInto [address] [fst bs; snd bs]] |}).
Proof.
  intros E. unfold UnaryStruct_get.
  rewrite (bind_Ret _ _ _ _ _ (write_then_readinto_run _ _ _ _ E)).
  reflexivity.
Qed.

Lemma Bits_get_run (num_bits : Z) (address : byte) (lowest_bit : Z)
    (w : world device) bs d :
  target_read (hw w) [address] = (bs, d) ->
  Bits_get num_bits address lowest_bit w =
    (Ret (Z.shiftr (Z.land (register_word bs) (bit_mask num_bits lowest_bit)) lowest_bit),
     {| hw := d;
        trace := trace w ++ [WriteThenReadInto [address] [fst bs; snd bs]] |}).
Proof.
  intros E. unfold Bits_get.
  rewrite (bind_Ret _ _ _ _ _ (write_then_readinto_run _ _ _ _ E)).
  reflexivity.
Qed.

Lemma Bits_set_run (num_bits : Z) (address : byte) (lowest_bit value : Z)
    (w : world device) c d :
  target_read (hw w) [address] = (c, d) ->
  let c' := written_word num_bits lowest_bit value c in
  Bits_set num_bits address lowest_bit value w =
    (Ret tt,
     {| hw := target_write d [address; fst c'; snd c'];
        trace := trace w ++ [WriteThenReadInto [address] [fst c; snd c];
                             Write [address; fst c'; snd c']] |}).
Proof.
  intros E c'. unfold Bits_set.
  rewrite (bind_Ret _ _ _ _ _ (write_then_readinto_run _ _ _ _ E)).
  unfold write. cbn [hw trace]. rewrite <- app_assoc. reflexivity.
Qed.

Lemma Bit_set_run (address : byte) (bit : Z) (value : bool) (w : world device) c d :
  target_read (hw w) [address] = (c, d) ->
  exists c',
    Bit_set address bit value w =
      (Ret tt,
       {| hw := target_write d [address; fst c'; snd c'];
          trace := trace w ++ [WriteThenReadInto [address] [fst c; snd c];
                               Write [address; fst c'; snd c']] |}) /\
    c' = Bit_put bit c
           (byte_of_int
              (if value
               then Z.lor (byte_val (Bit_pick bit c)) (Z.shiftl 1 (bit mod 8))
               else Z.land (byte_val (Bit_pick bit c)) (Z.lnot (Z.shiftl 1 (bit mod 8))))).
Proof.
  intros E. eexists. split; [|reflexivity].
  unfold Bit_set.
  rewrite (bind_Ret _ _ _ _ _ (write_then_readinto_run _ _ _ _ E)).
  unfold write. cbn [hw trace]. rewrite <- app_assoc. reflexivity.
Qed.

Lemma read_status_run (w : world device) bs d :
  target_read (hw w) [_CONFIGURATION] = (bs, d) ->
  _read_status w =
    (Ret (Z.land 4 (status_flags_of bs) >? 0,
          Z.land 2 (status_flags_of bs) >? 0,
          data_ready_of bs),
     {| hw := d; trace := trace w ++ [config_read bs] |}).
Proof.
  intros E. unfold _read_status, _alert_status_data_ready.
  rewrite (bind_Ret _ _ _ _ _ (Bits_get_run 3 _ 13 _ _ _ E)).
  reflexivity.
Qed.

(** ** The polling loop *)

Lemma poll_data_ready_spec (fuel : nat) :
  forall w : world device,
  exists (waits : list (byte * byte)) (o : outcome unit) (w' : world device),
    poll_data_ready fuel w = (o, w') /\
    Forall (fun bs => data_ready_of bs = false) waits /\
    match o with
    | Ret _ =>
        exists s, data_ready_of s = true /\ (length waits < fuel)%nat /\
                  trace w' = trace w ++ wait_events waits ++ [config_read s]
    | Pending => length waits = fuel /\ trace w' = trace w ++ wait_events waits
    | Raise _ => False
    end.
Proof.
  induction fuel as [|k IH]; intros w.
  - exists [], Pending, w. cbn. rewrite app_nil_r. auto.
  - destruct (target_read (hw w) [_CONFIGURATION]) as [bs d] eqn:E.
    cbn [poll_data_ready].
    rewrite (bind_Ret _ _ _ _ _ (read_status_run _ _ _ E)). cbn [snd].
    destruct (data_ready_of bs) eqn:R.
    + eexists [], (Ret tt), _. split; [reflexivity|]. split; [constructor|].
      exists bs. cbn. auto with arith.
    + rewrite (bind_Ret _ _ _ _ _ (time_sleep_run _ _)).
      match goal with |- context [poll_data_ready k ?w2] =>
        destruct (IH w2) as (waits & o & w' & Erun & Hwaits & Ho) end.
      exists (bs :: waits), o, w'. split; [exact Erun|].
      split; [constructor; assumption|].
      cbn [hw trace] in Ho.
      destruct o as [u|e|].
      * destruct Ho as (s & Hs & Hlen & Htr). exists s.
        split; [exact Hs|]. split; [cbn; lia|].
        rewrite Htr. cbn. rewrite <- !app_assoc. reflexivity.
      * exact Ho.
      * destruct Ho as (Hlen & Htr). split; [cbn; lia|].
        rewrite Htr. cbn. rewrite <- !app_assoc. reflexivity.
Qed.

(** A run that found data ready is not changed by a larger budget. *)
Lemma poll_data_ready_more_fuel (fuel : nat) :
  forall (w w' : world device) (extra : nat),
    poll_data_ready fuel w = (Ret tt, w') ->
    poll_data_ready (fuel + extra) w = (Ret tt, w').
Proof.
  induction fuel as [|k IH]; intros w w' extra Hrun.
  - discriminate Hrun.
  - destruct (target_read (hw w) [_CONFIGURATION]) as [bs d] eqn:E.
    cbn [poll_data_ready Nat.add] in Hrun |- *.
    rewrite (bind_Ret _ _ _ _ _ (read_status_run _ _ _ E)) in Hrun.
    rewrite (bind_Ret _ _ _ _ _ (read_status_run _ _ _ E)).
    cbn [snd] in Hrun |- *.
    destruct (data_ready_of bs); [exact Hrun|].
    rewrite (bind_Ret _ _ _ _ _ (time_sleep_run _ _)) in Hrun.
    rewrite (bind_Ret _ _ _ _ _ (time_sleep_run _ _)).
    apply IH. exact Hrun.
Qed.

Lemma set_mode_and_wait_spec (fuel : nat) (mode : Z) (w : world device) c d :
  target_read (hw w) [_CONFIGURATION] = (c, d) ->
  let c' := written_word 2 10 mode c in
  let start := [config_read c; Write [_CONFIGURATION; fst c'; snd c']] in
  exists (waits : list (byte * byte)) (o : outcome float) (w' : world device),
    _set_mode_and_wait_for_measurement fuel mode w = (o, w') /\
    Forall (fun bs => data_ready_of bs = false) waits /\
    match o with
    | Ret t =>
        exists s bs,
          data_ready_of s = true /\ (length waits < fuel)%nat /\
          t = raw_to_celsius (unpack_h (fst bs) (snd bs)) /\
          trace w' = trace w ++ start ++ wait_events waits ++
                     [config_read s;
                      WriteThenReadInto [_TEMP_RESULT] [fst bs; snd bs]]
    | Pending => length waits = fuel /\ trace w' = trace w ++ start ++ wait_events waits
    | Raise _ => False
    end.
Proof.
  intros E c' start. unfold _set_mode_and_wait_for_measurement.
  rewrite (bind_Ret _ _ _ _ _ (Bits_set_run 2 _ 10 mode _ _ _ E)).
  fold c'.
  match goal with |- context [bind (poll_data_ready fuel) _ ?w1] =>
    destruct (poll_data_ready_spec fuel w1) as (waits & o & w2 & Erun & Hwaits & Ho)
  end.
  cbn [hw trace] in Ho.
  exists waits. destruct o as [u|e|].
  - rewrite (bind_Ret _ _ _ _ _ Erun).
    destruct (target_read (hw w2) [_TEMP_RESULT]) as [bs d2] eqn:E2.
    unfold _raw_temperature.
    rewrite (bind_Ret _ _ _ _ _ (UnaryStruct_get_run _ unpack_h _ _ _ E2)).
    eexists _, _. split; [reflexivity|]. split; [exact Hwaits|].
    destruct Ho as (s & Hs & Hlen & Htr).
    exists s, bs. repeat split; try assumption.
    cbn [trace]. rewrite Htr. unfold start, config_read.
    rewrite <- !app_assoc. reflexivity.
  - contradiction.
  - rewrite (bind_Pending _ _ _ _ Erun).
    eexists _, _. split; [reflexivity|]. split; [exact Hwaits|].
    destruct Ho as (Hlen & Htr). split; [exact Hlen|].
    rewrite Htr. unfold start, config_read. rewrite <- !app_assoc. reflexivity.
Qed.

Lemma set_mode_and_wait_more_fuel (fuel extra : nat) (mode : Z) (w w' : world device) t :
  _set_mode_and_wait_for_measurement fuel mode w = (Ret t, w') ->
  _set_mode_and_wait_for_measurement (fuel + extra) mode w = (Ret t, w').
Proof.
  unfold _set_mode_and_wait_for_measurement, bind.
  destruct (Bits_set 2 _CONFIGURATION 10 mode w) as [[u|e|] w1]; try discriminate.
  destruct (poll_data_ready fuel w1) as [[[]|e|] w2] eqn:Epoll; try discriminate.
  rewrite (poll_data_ready_more_fuel fuel w1 w2 extra Epoll).
  trivial.
Qed.

End DriverFacts.

(** ** Words written by the bit-field descriptors *)

Lemma mode_field_written (value : Z) (c : byte * byte) :
  0 <= value < 4 -> field_write_ok 2 10 value c = true.
Proof.
  intros Hv.
  assert (value = 0 \/ value = 1 \/ value = 2 \/ value = 3)
    as [->|[->|[->| ->]]] by lia;
    apply (byte_pair_forall_spec (field_write_ok 2 10 _));
    vm_cast_no_check (eq_refl true).
Qed.

Lemma reset_word_sets_bit_1 (c : byte * byte) : reset_word_ok c = true.
Proof.
  apply (byte_pair_forall_spec reset_word_ok). vm_cast_no_check (eq_refl true).
Qed.

Lemma status_flags_top_bits (c : byte * byte) :
  status_flags_of c = unpack_H (fst c) (snd c) / 8192.
Proof.
  change 8192 with (2 ^ 13). rewrite <- Z.shiftr_div_pow2 by lia.
  apply Z.eqb_eq.
  apply (byte_pair_forall_spec status_flags_ok). vm_cast_no_check (eq_refl true).
Qed.

Lemma status_flags_range (c : byte * byte) : 0 <= status_flags_of c < 8.
Proof.
  rewrite status_flags_top_bits.
  pose proof (unpack_H_range (fst c) (snd c)) as Hr.
  split.
  - apply Z.div_pos; lia.
  - apply Z.div_lt_upper_bound; lia.
Qed.

Lemma unpack_H_inj (a b c d : byte) :
  unpack_H a b = unpack_H c d -> a = c /\ b = d.
Proof.
  unfold unpack_H. intros E.
  pose proof (byte_val_range a). pose proof (byte_val_range b).
  pose proof (byte_val_range c). pose proof (byte_val_range d).
  assert (Ha : byte_val a = byte_val c) by lia.
  assert (Hb : byte_val b = byte_val d) by lia.
  rewrite <- (byte_of_int_val a), <- (byte_of_int_val b), Ha, Hb.
  rewrite !byte_of_int_val. auto.
Qed.

Lemma py_in_spec (value : Z) (l : list Z) : py_in value l = true <-> In value l.
Proof.
  unfold py_in. rewrite existsb_exists. split.
  - intros (x & Hx & Hv). apply Z.eqb_eq in Hv. subst x. exact Hx.
  - intros Hin. exists value. split; [exact Hin | apply Z.eqb_refl].
Qed.

Lemma mode_write_effect (value : Z) (c : byte * byte) :
  0 <= value < 4 ->
  let old := unpack_H (fst c) (snd c) in
  let c' := written_word 2 10 value c in
  let new := unpack_H (fst c') (snd c') in
  (new / 1024) mod 4 = value /\
  new / 4096 = old / 4096 /\
  new mod 1024 = old mod 1024.
Proof.
  intros Hv old c' new.
  pose proof (mode_field_written value c Hv) as Hok.
  unfold field_write_ok in Hok. fold old c' new in Hok.
  apply andb_true_iff in Hok as [Hok H3].
  apply andb_true_iff in Hok as [H1 H2].
  apply Z.eqb_eq in H1, H2, H3.
  rewrite !Z.land_ones, !Z.shiftr_div_pow2 in * by lia.
  change (2 ^ 10) with 1024 in *. change (2 ^ 2) with 4 in *.
  change (2 ^ (10 + 2)) with 4096 in *. auto.
Qed.

Lemma low_bits_keep_bit_1 (a b : Z) :
  a mod 1024 = b mod 1024 -> Z.testbit a 1 = Z.testbit b 1.
Proof.
  intros E. change 1024 with (2 ^ 10) in E.
  rewrite <- (Z.mod_pow2_bits_low a 10 1), <- (Z.mod_pow2_bits_low b 10 1) by lia.
  rewrite E. reflexivity.
Qed.

(** On the bench, [temperature] is the scaled content of register 0. *)
Lemma bench_temperature (b : world bench) :
  fst (temperature b) =
    Ret (raw_to_celsius
           (unpack_h (fst (bench_lookup (registers (hw b)) _TEMP_RESULT))
                     (snd (bench_lookup (registers (hw b)) _TEMP_RESULT)))).
Proof.
  assert (E : target_read (hw b) [_TEMP_RESULT]
              = (bench_lookup (registers (hw b)) _TEMP_RESULT, hw b))
    by reflexivity.
  unfold temperature, _raw_temperature.
  rewrite (bind_Ret _ _ _ _ _ (UnaryStruct_get_run _ unpack_h _ _ _ E)).
  reflexivity.
Qed.

Lemma bench_offset_write_keeps_reading (py : interpreter) (value : float)
    (b : world bench) :
  bench_lookup (registers (hw (snd (set_temperature_offset py value b)))) _TEMP_RESULT
  = bench_lookup (registers (hw b)) _TEMP_RESULT.
Proof.
  unfold set_temperature_offset, UnaryStruct_set, bind, lift.
  destruct (_scaled_limit value) as [raw|e|]; try reflexivity.
  destruct (pack_h py raw) as [[b1 b2]|e|]; reflexivity.
Qed.

(** ** The driver's operations *)

Section Operations.

Context {device : Type} `{I2CTarget device}.

(** C8: for every signed 16-bit raw temperature count r held by the
    temperature-result register, [temperature] returns r * 0.0078125 degrees
    Celsius, with no rounding (the float returned stands for the rational
    r / 128); raw count 128 gives exactly 1.0. *)
Theorem temperature_is_raw_count_times_resolution
    (w : world device) (bs : byte * byte) (d : device) (r : Z) :
  target_read (hw w) [_TEMP_RESULT] = (bs, d) ->
  unpack_h (fst bs) (snd bs) = r ->
  -32768 <= r <= 32767 /\
  exists t,
    temperature w =
      (Ret t,
       {| hw := d;
          trace := trace w ++ [WriteThenReadInto [_TEMP_RESULT] [fst bs; snd bs]] |}) /\
    t = PyFloat.mul (PyFloat.of_int r) _TMP117_RESOLUTION /\
    (exists q, PyFloat.exact t = Some q /\ (q == inject_Z r * (1 # 128))%Q) /\
    (r = 128 -> t = PyFloat.of_int 1).
Proof.
  intros E Hr.
  assert (Hrange : -32768 <= r <= 32767)
    by (rewrite <- Hr; apply unpack_h_range).
  split; [exact Hrange|].
  exists (raw_to_celsius r). split; [|split; [reflexivity|split]].
  - unfold temperature, _raw_temperature.
    rewrite (bind_Ret _ _ _ _ _ (UnaryStruct_get_run _ unpack_h _ _ _ E)).
    rewrite Hr. reflexivity.
  - apply raw_to_celsius_exact. exact Hrange.
  - intros ->. exact raw_to_celsius_128.
Qed.

(** C4: the three status flags are read in one transaction (a single read
    of the configuration register) and decomposed by masks: for the 3-bit
    snapshot s in bits 15:13 of the word read, high alert is (s & 0b100) != 0,
    low alert is (s & 0b010) != 0 and data ready is (s & 0b001) != 0;
    [alert_status] hands back exactly the pair of alerts; snapshot 0b101
    gives high alert true, low alert false, data ready true. *)
Theorem status_snapshot_decomposition
    (w : world device) (bs : byte * byte) (d : device) (s : Z) :
  target_read (hw w) [_CONFIGURATION] = (bs, d) ->
  s = unpack_H (fst bs) (snd bs) / 8192 ->
  let w' := {| hw := d; trace := trace w ++ [config_read bs] |} in
  0 <= s < 8 /\
  _read_status w =
    (Ret (negb (Z.land s 4 =? 0), negb (Z.land s 2 =? 0), negb (Z.land s 1 =? 0)), w') /\
  alert_status w =
    (Ret {| high_alert := negb (Z.land s 4 =? 0);
            low_alert := negb (Z.land s 2 =? 0) |}, w') /\
  (s = 5 ->
   _read_status w = (Ret (true, false, true), w') /\
   alert_status w = (Ret {| high_alert := true; low_alert := false |}, w')).
Proof.
  intros E Hs w'.
  rewrite <- status_flags_top_bits in Hs.
  pose proof (status_flags_range bs) as Hrange. rewrite <- Hs in Hrange.
  assert (Hstatus :
    _read_status w =
      (Ret (negb (Z.land s 4 =? 0), negb (Z.land s 2 =? 0), negb (Z.land s 1 =? 0)), w')).
  { rewrite (read_status_run _ _ _ E). unfold data_ready_of. rewrite <- Hs.
    assert (s = 0 \/ s = 1 \/ s = 2 \/ s = 3 \/ s = 4 \/ s = 5 \/ s = 6 \/ s = 7)
      as [->|[->|[->|[->|[->|[->|[->| ->]]]]]]] by lia; reflexivity. }
  assert (Halert :
    alert_status w =
      (Ret {| high_alert := negb (Z.land s 4 =? 0);
              low_alert := negb (Z.land s 2 =? 0) |}, w')).
  { unfold alert_status. rewrite (bind_Ret _ _ _ _ _ Hstatus). reflexivity. }
  split; [exact Hrange|]. split; [exact Hstatus|]. split; [exact Halert|].
  intros ->. split; [exact Hstatus | exact Halert].
Qed.

(** C5: for every integer v, the [averaged_measurements] setter succeeds
    exactly when v is one of 0, 1, 2, 3, the [measurement_delay] setter
    exactly when v is one of 0..7, and the [alert_mode] setter exactly when
    v is 0 or 1; for any other v each raises ValueError with no bus traffic
    at all: device and trace are as they were. *)
Theorem discrete_setters_validate_first (w : world device) (v : Z) :
  ((exists w', set_averaged_measurements v w = (Ret tt, w')) <-> In v [0; 1; 2; 3]) /\
  (~ In v [0; 1; 2; 3] -> set_averaged_measurements v w = (Raise ValueError, w)) /\
  ((exists w', set_measurement_delay v w = (Ret tt, w'))
     <-> In v [0; 1; 2; 3; 4; 5; 6; 7]) /\
  (~ In v [0; 1; 2; 3; 4; 5; 6; 7] ->
     set_measurement_delay v w = (Raise ValueError, w)) /\
  ((exists w', set_alert_mode v w = (Ret tt, w')) <-> In v [0; 1]) /\
  (~ In v [0; 1] -> set_alert_mode v w = (Raise ValueError, w)).
Proof.
  destruct (target_read (hw w) [_CONFIGURATION]) as [c d] eqn:E.
  unfold set_averaged_measurements, set_measurement_delay, set_alert_mode.
  repeat match goal with
  | |- _ /\ _ => split
  | |- context [py_in v ?l] =>
      let Hin := fresh "Hin" in
      pose proof (py_in_spec v l) as Hin;
      destruct (py_in v l); cbn [negb]
  end;
  try (intros Hn; exfalso; apply Hn; apply Hin; reflexivity);
  try (intros _; reflexivity);
  try (split; [intros _; apply Hin; reflexivity |]; intros _).
  - eexists. apply (Bits_set_run 2 _ 5 v _ _ _ E).
  - split; [intros (w' & Hw'); discriminate Hw' | intros Hv; apply Hin in Hv; discriminate Hv].
  - eexists. apply (Bits_set_run 3 _ 7 v _ _ _ E).
  - split; [intros (w' & Hw'); discriminate Hw' | intros Hv; apply Hin in Hv; discriminate Hv].
  - destruct (Bit_set_run _CONFIGURATION 4 (negb (v =? 0)) _ _ _ E) as (c' & Hrun & _).
    eexists. exact Hrun.
  - split; [intros (w' & Hw'); discriminate Hw' | intros Hv; apply Hin in Hv; discriminate Hv].
Qed.

(** C6: when the device-id register reads anything but 0x0117, construction
    raises AttributeError ("Cannot find a TMP117") after that one read: no
    reset, no mode write, no other read follows, and no object results. *)
Theorem wrong_part_id_aborts_construction
    (fuel : nat) (w : world device) (bs : byte * byte) (d : device) :
  target_read (hw w) [_DEVICE_ID] = (bs, d) ->
  unpack_H (fst bs) (snd bs) <> 0x0117 ->
  __init__ fuel w =
    (Raise AttributeError,
     {| hw := d;
        trace := trace w ++ [WriteThenReadInto [_DEVICE_ID] [fst bs; snd bs]] |}).
Proof.
  intros E Hid. unfold __init__, _part_id.
  rewrite (bind_Ret _ _ _ _ _ (UnaryStruct_get_run _ unpack_H _ _ _ E)).
  apply Z.eqb_neq in Hid. unfold _DEVICE_ID_VALUE. rewrite Hid. reflexivity.
Qed.

(** C7: [serial_number] issues exactly three two-byte reads, of EEPROM1,
    EEPROM2 and EEPROM3 in that order, on every call (it holds no state of
    its own), and returns the six bytes received in order, which is the
    big-endian concatenation of the three words; words 0xAABB, 0xCCDD,
    0xEEFF give the bytes AA BB CC DD EE FF. *)
Theorem serial_number_reads_three_eeprom_words
    (w : world device) (e1 e2 e3 : byte * byte) (d1 d2 d3 : device) :
  target_read (hw w) [_EEPROM1] = (e1, d1) ->
  target_read d1 [_EEPROM2] = (e2, d2) ->
  target_read d2 [_EEPROM3] = (e3, d3) ->
  exists sn,
    serial_number w =
      (Ret sn,
       {| hw := d3;
          trace := trace w ++ [WriteThenReadInto [_EEPROM1] [fst e1; snd e1];
                               WriteThenReadInto [_EEPROM2] [fst e2; snd e2];
                               WriteThenReadInto [_EEPROM3] [fst e3; snd e3]] |}) /\
    sn = [fst e1; snd e1; fst e2; snd e2; fst e3; snd e3] /\
    int_from_bytes sn =
      (unpack_H (fst e1) (snd e1) * 65536 + unpack_H (fst e2) (snd e2)) * 65536
      + unpack_H (fst e3) (snd e3) /\
    (unpack_H (fst e1) (snd e1) = 0xAABB ->
     unpack_H (fst e2) (snd e2) = 0xCCDD ->
     unpack_H (fst e3) (snd e3) = 0xEEFF ->
     sn = [xaa; xbb; xcc; xdd; xee; xff]).
Proof.
  intros E1 E2 E3. eexists. split; [|split; [reflexivity|split]].
  - unfold serial_number.
    rewrite (bind_Ret _ _ _ _ _ (write_then_readinto_run _ _ _ _ E1)).
    rewrite (bind_Ret _ _ _ _ _
               (write_then_readinto_run _ {| hw := d1; trace := _ |} _ _ E2)).
    rewrite (bind_Ret _ _ _ _ _
               (write_then_readinto_run _ {| hw := d2; trace := _ |} _ _ E3)).
    unfold ret. cbn [hw trace]. rewrite <- !app_assoc. reflexivity.
  - unfold int_from_bytes, unpack_H. cbn [fold_left]. ring.
  - intros H1 H2 H3.
    apply (unpack_H_inj _ _ xaa xbb) in H1 as [-> ->].
    apply (unpack_H_inj _ _ xcc xdd) in H2 as [-> ->].
    apply (unpack_H_inj _ _ xee xff) in H3 as [-> ->].
    reflexivity.
Qed.

(** C9: whatever is stored in the temperature-offset register, the value
    [temperature] returns is computed from the temperature-result register
    alone: its one bus transfer is the read of register 0x00, two devices
    that answer this read alike give the same reading whatever else they
    hold, the float returned is exactly raw / 128 with nothing added, and on
    a plain register file storing any offset leaves the reading as it was. *)
Theorem temperature_reads_only_the_result_register
    (w1 w2 : world device) (bs : byte * byte) (d1 d2 : device) :
  target_read (hw w1) [_TEMP_RESULT] = (bs, d1) ->
  target_read (hw w2) [_TEMP_RESULT] = (bs, d2) ->
  let raw := unpack_h (fst bs) (snd bs) in
  temperature w1 =
    (Ret (raw_to_celsius raw),
     {| hw := d1;
        trace := trace w1 ++ [WriteThenReadInto [_TEMP_RESULT] [fst bs; snd bs]] |}) /\
  fst (temperature w2) = fst (temperature w1) /\
  (exists q, PyFloat.exact (raw_to_celsius raw) = Some q /\
             (q == inject_Z raw * (1 # 128))%Q) /\
  (forall (py : interpreter) (offset : float) (b : world bench),
     fst (temperature (snd (set_temperature_offset py offset b)))
     = fst (temperature b)).
Proof.
  intros E1 E2 raw.
  assert (Hrun : forall (w : world device) d,
            target_read (hw w) [_TEMP_RESULT] = (bs, d) ->
            temperature w =
              (Ret (raw_to_celsius raw),
               {| hw := d;
                  trace := trace w ++
                           [WriteThenReadInto [_TEMP_RESULT] [fst bs; snd bs]] |})).
  { intros w d E. unfold temperature, _raw_temperature.
    rewrite (bind_Ret _ _ _ _ _ (UnaryStruct_get_run _ unpack_h _ _ _ E)).
    reflexivity. }
  split; [apply Hrun; exact E1|].
  split; [rewrite (Hrun _ _ E1), (Hrun _ _ E2); reflexivity|].
  split; [apply raw_to_celsius_exact; apply unpack_h_range|].
  intros py offset b.
  rewrite !bench_temperature, bench_offset_write_keeps_reading. reflexivity.
Qed.

(** C10: for every mode value v (SHUTDOWN as much as CONTINUOUS and
    ONE_SHOT), assigning [measurement_mode] first rewrites the configuration
    word with v in the mode field (bits 11:10, the other bits as read) and
    then polls the status: every status read before the last found data
    ready clear and was followed by a 1 ms sleep, the setter returns only
    after a status read that found data ready set, a larger budget changes
    nothing once it has returned, and while every read finds the flag clear
    the loop is still running when the budget is spent. *)
Theorem measurement_mode_setter_blocks_until_data_ready
    (fuel : nat) (value : Z) (w : world device) (c : byte * byte) (d : device) :
  target_read (hw w) [_CONFIGURATION] = (c, d) ->
  let old := unpack_H (fst c) (snd c) in
  let c' := written_word 2 10 value c in
  let new := unpack_H (fst c') (snd c') in
  let start := [config_read c; Write [_CONFIGURATION; fst c'; snd c']] in
  (0 <= value < 4 ->
   (new / 1024) mod 4 = value /\ new / 4096 = old / 4096 /\
   new mod 1024 = old mod 1024) /\
  exists (waits : list (byte * byte)) (o : outcome unit) (w' : world device),
    set_measurement_mode fuel value w = (o, w') /\
    Forall (fun bs => data_ready_of bs = false) waits /\
    match o with
    | Ret _ =>
        exists s bs,
          data_ready_of s = true /\ (length waits < fuel)%nat /\
          trace w' = trace w ++ start ++ wait_events waits ++
                     [config_read s;
                      WriteThenReadInto [_TEMP_RESULT] [fst bs; snd bs]] /\
          forall extra, set_measurement_mode (fuel + extra) value w = (o, w')
    | Pending => length waits = fuel /\ trace w' = trace w ++ start ++ wait_events waits
    | Raise _ => False
    end.
Proof.
  intros E old c' new start.
  split; [intros Hv; apply (mode_write_effect value c Hv)|].
  destruct (set_mode_and_wait_spec fuel value w c d E)
    as (waits & o & w' & Erun & Hwaits & Ho).
  exists waits. unfold set_measurement_mode.
  destruct o as [t|e|].
  - exists (Ret tt), w'. rewrite (bind_Ret _ _ _ _ _ Erun).
    split; [reflexivity|]. split; [exact Hwaits|].
    destruct Ho as (s & bs & Hs & Hlen & _ & Htr).
    exists s, bs. repeat split; try assumption.
    intros extra.
    rewrite (bind_Ret _ _ _ _ _ (set_mode_and_wait_more_fuel fuel extra _ _ _ _ Erun)).
    reflexivity.
  - contradiction.
  - exists Pending, w'. rewrite (bind_Pending _ _ _ _ Erun).
    split; [reflexivity|]. split; [exact Hwaits | exact Ho].
Qed.

(** C2 (as amended): [initialize] performs, in order, the mode write of
    [_set_mode_and_wait_for_measurement] with CONTINUOUS (which clears the
    mode field and keeps every other bit, the soft-reset bit included), the
    data-ready poll and temperature read of that call, and then one sleep of
    1 second; it does not call [reset].  The reset belongs to the
    constructor, which on a matching device id rewrites the configuration
    word with the soft-reset bit set and then runs [initialize]. *)
Theorem initialize_sets_mode_waits_then_sleeps
    (fuel : nat) (w : world device) (c : byte * byte) (d : device) :
  target_read (hw w) [_CONFIGURATION] = (c, d) ->
  let old := unpack_H (fst c) (snd c) in
  let c' := written_word 2 10 _CONTINUOUS_CONVERSION_MODE c in
  let new := unpack_H (fst c') (snd c') in
  let start := [config_read c; Write [_CONFIGURATION; fst c'; snd c']] in
  ((new / 1024) mod 4 = 0 /\ new / 4096 = old / 4096 /\
   new mod 1024 = old mod 1024 /\ Z.testbit new 1 = Z.testbit old 1) /\
  (exists (waits : list (byte * byte)) (o : outcome unit) (w' : world device),
     initialize fuel w = (o, w') /\
     Forall (fun bs => data_ready_of bs = false) waits /\
     match o with
     | Ret _ =>
         exists s bs,
           data_ready_of s = true /\ (length waits < fuel)%nat /\
           trace w' = trace w ++ start ++ wait_events waits ++
                      [config_read s;
                       WriteThenReadInto [_TEMP_RESULT] [fst bs; snd bs];
                       Sleep (PyFloat.of_int 1)]
     | Pending => length waits = fuel /\ trace w' = trace w ++ start ++ wait_events waits
     | Raise _ => False
     end) /\
  (forall (id : byte * byte) (d0 : device) (c0 : byte * byte) (d1 : device),
     target_read (hw w) [_DEVICE_ID] = (id, d0) ->
     unpack_H (fst id) (snd id) = 0x0117 ->
     target_read d0 [_CONFIGURATION] = (c0, d1) ->
     let r := reset_word c0 in
     Z.testbit (unpack_H (fst r) (snd r)) 1 = true /\
     __init__ fuel w =
       initialize fuel
         {| hw := target_write d1 [_CONFIGURATION; fst r; snd r];
            trace := trace w ++ [WriteThenReadInto [_DEVICE_ID] [fst id; snd id];
                                 config_read c0;
                                 Write [_CONFIGURATION; fst r; snd r]] |}).
Proof.
  intros E old c' new start. split; [|split].
  - destruct (mode_write_effect 0 c ltac:(lia)) as (H1 & H2 & H3).
    repeat split; try assumption.
    apply low_bits_keep_bit_1. exact H3.
  - destruct (set_mode_and_wait_spec fuel _CONTINUOUS_CONVERSION_MODE w c d E)
      as (waits & o & w' & Erun & Hwaits & Ho).
    exists waits. unfold initialize.
    destruct o as [t|e|].
    + rewrite (bind_Ret _ _ _ _ _ Erun).
      eexists (Ret tt), _. split; [reflexivity|]. split; [exact Hwaits|].
      destruct Ho as (s & bs & Hs & Hlen & _ & Htr).
      exists s, bs. repeat split; try assumption.
      cbn [trace]. rewrite Htr. rewrite <- !app_assoc. reflexivity.
    + contradiction.
    + exists Pending, w'. rewrite (bind_Pending _ _ _ _ Erun).
      split; [reflexivity|]. split; [exact Hwaits | exact Ho].
  - intros id d0 c0 d1 Eid Hid Ec0 r. split.
    + pose proof (reset_word_sets_bit_1 c0) as Hok. unfold reset_word_ok in Hok.
      apply andb_true_iff in Hok as [Hbit _]. exact Hbit.
    + unfold __init__, _part_id.
      rewrite (bind_Ret _ _ _ _ _ (UnaryStruct_get_run _ unpack_H _ _ _ Eid)).
      rewrite Hid. cbn [negb Z.eqb _DEVICE_ID_VALUE Pos.eqb].
      destruct (Bit_set_run _CONFIGURATION 1 true
                  {| hw := d0;
                     trace := trace w ++
                              [WriteThenReadInto [_DEVICE_ID] [fst id; snd id]] |}
                  c0 d1 Ec0) as (r' & Hrun & Hr').
      unfold reset. rewrite (bind_Ret _ _ _ _ _ Hrun).
      subst r'. fold (reset_word c0). fold r.
      cbn [trace]. rewrite <- !app_assoc. reflexivity.
Qed.

End Operations.

(** ** The limit and offset setters at the edge of the range *)

Lemma limit_setters_reject_before_write {device : Type} `{I2CTarget device}
    (py : interpreter) (value : float) (w : world device) :
  PyFloat.gt value (PyFloat.of_int 256) = true \/
  PyFloat.lt value (PyFloat.of_int (-256)) = true ->
  set_high_limit py value w = (Raise ValueError, w) /\
  set_low_limit py value w = (Raise ValueError, w) /\
  set_temperature_offset py value w = (Raise ValueError, w).
Proof.
  intros Hguard.
  unfold set_high_limit, set_low_limit, set_temperature_offset, bind, lift.
  rewrite (scaled_limit_guard value Hguard). auto.
Qed.

Lemma limit_setters_reject_before_write_witness :
  PyFloat.gt (PyFloat.of_int 257) (PyFloat.of_int 256) = true /\
  set_high_limit CPython (PyFloat.of_int 257) (bench_world [] 0)
  = (Raise ValueError, bench_world [] 0).
Proof.
  split; [reflexivity|].
  apply (limit_setters_reject_before_write CPython (PyFloat.of_int 257)
           (bench_world [] 0)).
  left. reflexivity.
Defined.

(** C1 (the code departs from the specification at 256.0): the guard of
    [_scaled_limit] is [value > 256], so 256.0 itself is not rejected.  The
    call returns 32768, which is no signed 16-bit count; handed to the
    ">h" register write it wraps to 0x8000 (-256 degrees) on CircuitPython
    and makes CPython's struct raise, in neither case the ValueError the
    specification and the function's own message promise. *)
Theorem scaled_limit_accepts_256 :
  PyFloat.gt (PyFloat.of_int 256) (PyFloat.of_int 256) = false /\
  _scaled_limit (PyFloat.of_int 256) = Ret 32768 /\
  ~ (-32768 <= 32768 <= 32767) /\
  fst (set_high_limit CircuitPython (PyFloat.of_int 256) (bench_world [] 0)) = Ret tt /\
  trace (snd (set_high_limit CircuitPython (PyFloat.of_int 256) (bench_world [] 0)))
  = [Write [_T_HIGH_LIMIT; x80; x00]] /\
  unpack_h x80 x00 = -32768 /\
  set_high_limit CPython (PyFloat.of_int 256) (bench_world [] 0)
  = (Raise StructError, bench_world [] 0).
Proof.
  repeat split; try (vm_compute; reflexivity).
  lia.
Qed.

(** Inside the range the quotient is cut toward zero, not rounded: 0.01 and
    -0.01 degrees (1.28 counts) become 1 and -1; 255.9921875 gives the
    largest count, -256 the smallest; NaN and infinity raise ValueError. *)
Lemma scaled_limit_truncates :
  let hundredth :=
    SFdiv PyFloat.prec PyFloat.emax (PyFloat.of_int 1) (PyFloat.of_int 100) in
  _scaled_limit hundredth = Ret 1 /\
  _scaled_limit (SFopp hundredth) = Ret (-1) /\
  _scaled_limit (raw_to_celsius 32767) = Ret 32767 /\
  _scaled_limit (PyFloat.of_int (-256)) = Ret (-32768) /\
  _scaled_limit S754_nan = Raise ValueError /\
  _scaled_limit (S754_infinity false) = Raise ValueError.
Proof. vm_compute. repeat split. Qed.

(** ** Runs on the bench *)

Lemma temperature_is_raw_count_times_resolution_witness :
  target_read (hw (bench_world [] 0)) [_TEMP_RESULT]
  = ((x00, x80), hw (bench_world [] 0)) /\
  unpack_h x00 x80 = 128 /\
  fst (temperature (bench_world [] 0)) = Ret (PyFloat.of_int 1).
Proof.
  assert (E : target_read (hw (bench_world [] 0)) [_TEMP_RESULT]
              = ((x00, x80), hw (bench_world [] 0))) by reflexivity.
  assert (Hr : unpack_h x00 x80 = 128) by reflexivity.
  split; [exact E|]. split; [exact Hr|].
  destruct (temperature_is_raw_count_times_resolution
              (bench_world [] 0) (x00, x80) _ 128 E Hr)
    as (_ & t & Hrun & _ & _ & H128).
  rewrite Hrun. cbn [fst]. f_equal. apply H128. reflexivity.
Defined.

Lemma status_snapshot_decomposition_witness :
  let w := bench_world [(_CONFIGURATION, (xa2, x20))] 0 in
  target_read (hw w) [_CONFIGURATION] = ((xa2, x20), hw w) /\
  5 = unpack_H xa2 x20 / 8192 /\
  fst (_read_status w) = Ret (true, false, true) /\
  fst (alert_status w) = Ret {| high_alert := true; low_alert := false |}.
Proof.
  intros w.
  assert (E : target_read (hw w) [_CONFIGURATION] = ((xa2, x20), hw w))
    by reflexivity.
  assert (Hs : 5 = unpack_H xa2 x20 / 8192) by reflexivity.
  split; [exact E|]. split; [exact Hs|].
  destruct (status_snapshot_decomposition w (xa2, x20) (hw w) 5 E Hs)
    as (_ & _ & _ & H5).
  destruct (H5 eq_refl) as [Hstatus Halert].
  rewrite Hstatus, Halert. split; reflexivity.
Defined.

Lemma wrong_part_id_aborts_construction_witness :
  let w := bench_world [(_DEVICE_ID, (x01, x16))] 3 in
  target_read (hw w) [_DEVICE_ID] = ((x01, x16), hw w) /\
  unpack_H x01 x16 <> 0x0117 /\
  __init__ 10 w =
    (Raise AttributeError,
     {| hw := hw w; trace := [WriteThenReadInto [_DEVICE_ID] [x01; x16]] |}).
Proof.
  intros w.
  assert (E : target_read (hw w) [_DEVICE_ID] = ((x01, x16), hw w))
    by reflexivity.
  assert (Hid : unpack_H x01 x16 <> 0x0117) by (vm_compute; discriminate).
  split; [exact E|]. split; [exact Hid|].
  exact (wrong_part_id_aborts_construction 10 w (x01, x16) (hw w) E Hid).
Defined.

Lemma serial_number_reads_three_eeprom_words_witness :
  let w := bench_world [] 0 in
  target_read (hw w) [_EEPROM1] = ((xaa, xbb), hw w) /\
  target_read (hw w) [_EEPROM2] = ((xcc, xdd), hw w) /\
  target_read (hw w) [_EEPROM3] = ((xee, xff), hw w) /\
  fst (serial_number w) = Ret [xaa; xbb; xcc; xdd; xee; xff] /\
  trace (snd (serial_number w))
  = [WriteThenReadInto [_EEPROM1] [xaa; xbb];
     WriteThenReadInto [_EEPROM2] [xcc; xdd];
     WriteThenReadInto [_EEPROM3] [xee; xff]].
Proof.
  intros w.
  assert (E1 : target_read (hw w) [_EEPROM1] = ((xaa, xbb), hw w)) by reflexivity.
  assert (E2 : target_read (hw w) [_EEPROM2] = ((xcc, xdd), hw w)) by reflexivity.
  assert (E3 : target_read (hw w) [_EEPROM3] = ((xee, xff), hw w)) by reflexivity.
  split; [exact E1|]. split; [exact E2|]. split; [exact E3|].
  destruct (serial_number_reads_three_eeprom_words w _ _ _ _ _ _ E1 E2 E3)
    as (sn & Hrun & Hsn & _).
  rewrite Hrun, Hsn. split; reflexivity.
Defined.

(** No caching: a second call repeats the three reads. *)
Lemma serial_number_twice :
  trace (snd (bind serial_number (fun _ => serial_number) (bench_world [] 0)))
  = [WriteThenReadInto [_EEPROM1] [xaa; xbb];
     WriteThenReadInto [_EEPROM2] [xcc; xdd];
     WriteThenReadInto [_EEPROM3] [xee; xff];
     WriteThenReadInto [_EEPROM1] [xaa; xbb];
     WriteThenReadInto [_EEPROM2] [xcc; xdd];
     WriteThenReadInto [_EEPROM3] [xee; xff]].
Proof. reflexivity. Qed.

Lemma temperature_reads_only_the_result_register_witness :
  let w1 := bench_world [] 0 in
  let w2 := bench_world [(_TEMP_OFFSET, (x05, x00))] 4 in
  target_read (hw w1) [_TEMP_RESULT] = ((x00, x80), hw w1) /\
  target_read (hw w2) [_TEMP_RESULT] = ((x00, x80), hw w2) /\
  fst (temperature w2) = fst (temperature w1) /\
  fst (temperature
         (snd (set_temperature_offset CircuitPython (PyFloat.of_int 10) w1)))
  = fst (temperature w1).
Proof.
  intros w1 w2.
  assert (E1 : target_read (hw w1) [_TEMP_RESULT] = ((x00, x80), hw w1))
    by reflexivity.
  assert (E2 : target_read (hw w2) [_TEMP_RESULT] = ((x00, x80), hw w2))
    by reflexivity.
  split; [exact E1|]. split; [exact E2|].
  destruct (temperature_reads_only_the_result_register w1 w2 _ _ _ E1 E2)
    as (_ & Hsame & _ & Hoffset).
  split; [exact Hsame | apply Hoffset].
Defined.

Lemma measurement_mode_setter_blocks_until_data_ready_witness :
  let w := bench_world [] 2 in
  target_read (hw w) [_CONFIGURATION]
  = ((x02, x20),
     {| registers := registers (hw w); conversions_running := 1 |}) /\
  fst (set_measurement_mode 5 MEASUREMENTMODE_SHUTDOWN w) = Ret tt /\
  (forall extra,
     set_measurement_mode (5 + extra) MEASUREMENTMODE_SHUTDOWN w
     = set_measurement_mode 5 MEASUREMENTMODE_SHUTDOWN w).
Proof.
  intros w.
  assert (E : target_read (hw w) [_CONFIGURATION]
              = ((x02, x20),
                 {| registers := registers (hw w); conversions_running := 1 |}))
    by reflexivity.
  split; [exact E|]. split; [reflexivity|].
  destruct (measurement_mode_setter_blocks_until_data_ready
              5 MEASUREMENTMODE_SHUTDOWN w _ _ E)
    as (_ & waits & o & w' & Erun & _ & Ho).
  rewrite Erun.
  assert (Ho' : o = Ret tt).
  { pose proof (f_equal fst Erun) as Efst. cbn [fst] in Efst.
    rewrite <- Efst. reflexivity. }
  subst o. destruct Ho as (s & bs & _ & _ & _ & Hmore). exact Hmore.
Defined.

(** While the conversion never completes the setter is still polling,
    whatever the budget: here on a bench that needs more status reads than
    the budget allows. *)
Lemma measurement_mode_setter_pending_example :
  fst (set_measurement_mode 5 MEASUREMENTMODE_SHUTDOWN (bench_world [] 100))
  = Pending.
Proof. reflexivity. Qed.

Lemma initialize_sets_mode_waits_then_sleeps_witness :
  let w := bench_world [] 1 in
  target_read (hw w) [_CONFIGURATION]
  = ((x02, x20),
     {| registers := registers (hw w); conversions_running := 0 |}) /\
  written_word 2 10 _CONTINUOUS_CONVERSION_MODE (x02, x20) = (x02, x20) /\
  Z.testbit (unpack_H x02 x20) 1 = false /\
  fst (initialize 3 w) = Ret tt /\
  exists waits o w',
    initialize 3 w = (o, w') /\
    Forall (fun bs => data_ready_of bs = false) waits.
Proof.
  intros w.
  assert (E : target_read (hw w) [_CONFIGURATION]
              = ((x02, x20),
                 {| registers := registers (hw w); conversions_running := 0 |}))
    by reflexivity.
  split; [exact E|]. split; [reflexivity|]. split; [reflexivity|].
  split; [reflexivity|].
  destruct (initialize_sets_mode_waits_then_sleeps 3 w _ _ E)
    as (_ & (waits & o & w' & Erun & Hwaits & _) & _).
  exists waits, o, w'. split; assumption.
Defined.

(** C2 (as stated, refuted): on a bench sensor whose conversion is
    complete, [initialize] produces five bus events, the first write being
    the mode write with the soft-reset bit clear; the sequence the spec
    describes starts with the reset write (soft-reset bit set, last byte
    0x22) and has seven. *)
Lemma initialize_skips_reset :
  let w := bench_world [] 0 in
  trace (snd (initialize 1 w))
  = [WriteThenReadInto [_CONFIGURATION] [x22; x20];
     Write [_CONFIGURATION; x22; x20];
     WriteThenReadInto [_CONFIGURATION] [x22; x20];
     WriteThenReadInto [_TEMP_RESULT] [x00; x80];
     Sleep (PyFloat.of_int 1)] /\
  trace (snd (initialize_as_specified 1 w))
  = [WriteThenReadInto [_CONFIGURATION] [x22; x20];
     Write [_CONFIGURATION; x22; x22];
     WriteThenReadInto [_CONFIGURATION] [x22; x22];
     Write [_CONFIGURATION; x22; x22];
     WriteThenReadInto [_CONFIGURATION] [x22; x22];
     WriteThenReadInto [_TEMP_RESULT] [x00; x80];
     Sleep (PyFloat.of_int 1)] /\
  initialize 1 w <> initialize_as_specified 1 w.
Proof.
  intros w.
  assert (T1 : trace (snd (initialize 1 w))
               = [WriteThenReadInto [_CONFIGURATION] [x22; x20];
                  Write [_CONFIGURATION; x22; x20];
                  WriteThenReadInto [_CONFIGURATION] [x22; x20];
                  WriteThenReadInto [_TEMP_RESULT] [x00; x80];
                  Sleep (PyFloat.of_int 1)]) by (vm_compute; reflexivity).
  assert (T2 : trace (snd (initialize_as_specified 1 w))
               = [WriteThenReadInto [_CONFIGURATION] [x22; x20];
                  Write [_CONFIGURATION; x22; x22];
                  WriteThenReadInto [_CONFIGURATION] [x22; x22];
                  Write [_CONFIGURATION; x22; x22];
                  WriteThenReadInto [_CONFIGURATION] [x22; x22];
                  WriteThenReadInto [_TEMP_RESULT] [x00; x80];
                  Sleep (PyFloat.of_int 1)]) by (vm_compute; reflexivity).
  split; [exact T1|]. split; [exact T2|].
  intros Heq. rewrite Heq, T2 in T1. discriminate T1.
Qed.

(** ** Bit fields, analytically *)

Lemma byte_val_of_int (z : Z) : byte_val (byte_of_int z) = Z.land z 255.
Proof.
  unfold byte_of_int, byte_val.
  assert (Hr : 0 <= Z.land z 255 < 256).
  { change 255 with (Z.ones 8). rewrite Z.land_ones by lia.
    apply Z.mod_pos_bound. reflexivity. }
  destruct (Byte.of_N (Z.to_N (Z.land z 255))) as [b|] eqn:E.
  - apply Byte.to_of_N in E. rewrite E. apply Z2N.id. lia.
  - apply Byte.of_N_None_iff in E. lia.
Qed.

Lemma unpack_H_split (x : Z) :
  0 <= x < 65536 ->
  unpack_H (byte_of_int (Z.land (Z.shiftr x 8) 255)) (byte_of_int (Z.land x 255)) = x.
Proof.
  intros Hx. unfold unpack_H. rewrite !byte_val_of_int.
  change 255 with (Z.ones 8). rewrite !Z.land_ones by lia.
  rewrite Z.shiftr_div_pow2 by lia. change (2 ^ 8) with 256.
  rewrite !Z.mod_mod by lia.
  Z.to_euclidean_division_equations. lia.
Qed.

Lemma pack_h_unpack_h (py : interpreter) (n : Z) :
  -32768 <= n <= 32767 ->
  exists b1 b2, pack_h py n = Ret (b1, b2) /\ unpack_h b1 b2 = n.
Proof.
  intros Hn. unfold pack_h.
  destruct (Z.leb_spec (-32768) n); [|lia].
  destruct (Z.leb_spec n 32767); [|lia]. cbn [andb].
  eexists _, _. split; [reflexivity|].
  unfold unpack_h, unpack_H. rewrite !byte_val_of_int.
  change 255 with (Z.ones 8). rewrite !Z.land_ones by lia.
  rewrite Z.shiftr_div_pow2 by lia. change (2 ^ 8) with 256.
  destruct (Z.leb_spec 32768 ((n / 256) mod 256 * 256 + n mod 256));
    Z.to_euclidean_division_equations; lia.
Qed.

Lemma bit_mask_ones (n low : Z) :
  0 <= n -> bit_mask n low = Z.shiftl (Z.ones n) low.
Proof.
  intros Hn. unfold bit_mask. rewrite Z.ones_equiv, Z.shiftl_1_l.
  rewrite Z.sub_1_r. reflexivity.
Qed.

Lemma field_decode (n low w : Z) :
  0 <= n -> 0 <= low ->
  Z.shiftr (Z.land w (bit_mask n low)) low = (w / 2 ^ low) mod 2 ^ n.
Proof.
  intros Hn Hlow. rewrite bit_mask_ones by lia.
  rewrite Z.shiftr_land, Z.shiftr_shiftl_l by lia.
  rewrite Z.sub_diag, Z.shiftl_0_r, Z.land_ones, Z.shiftr_div_pow2 by lia.
  reflexivity.
Qed.

Lemma word16_high_bits (x i : Z) :
  0 <= x < 65536 -> 16 <= i -> Z.testbit x i = false.
Proof.
  intros Hx Hi. rewrite <- (Z.mod_small x (2 ^ 16)) by (change (2 ^ 16) with 65536; lia).
  apply Z.mod_pow2_bits_high. lia.
Qed.

Lemma small_high_bits (v n j : Z) :
  0 <= n -> 0 <= v < 2 ^ n -> n <= j -> Z.testbit v j = false.
Proof.
  intros Hn Hv Hj. rewrite <- (Z.mod_small v (2 ^ n)) by lia.
  apply Z.mod_pow2_bits_high. lia.
Qed.

(** Bit by bit: inside the field the new word has the bits of [value],
    outside it the bits of the old word. *)
Lemma field_merge_bits (n low v old i : Z) :
  0 <= n -> 0 <= low -> 0 <= v < 2 ^ n -> 0 <= i ->
  Z.testbit (Z.lor (Z.land old (Z.lnot (bit_mask n low))) (Z.shiftl v low)) i
  = if (low <=? i) && (i <? low + n) then Z.testbit v (i - low) else Z.testbit old i.
Proof.
  intros Hn Hlow Hv Hi.
  rewrite bit_mask_ones by lia.
  rewrite Z.lor_spec, Z.land_spec, Z.lnot_spec, !Z.shiftl_spec by lia.
  destruct (Z.leb_spec low i) as [Hle|Hlt]; cbn [andb].
  - destruct (Z.ltb_spec i (low + n)) as [Hin|Hout].
    + rewrite Z.ones_spec_low by lia. cbn [negb]. rewrite andb_false_r. reflexivity.
    + rewrite Z.ones_spec_high by lia.
      rewrite (small_high_bits v n (i - low)) by lia.
      cbn [negb]. rewrite andb_true_r, orb_false_r. reflexivity.
  - rewrite !(Z.testbit_neg_r _ (i - low)) by lia.
    cbn [negb]. rewrite andb_true_r, orb_false_r. reflexivity.
Qed.

Lemma field_merge_range (n low v old : Z) :
  0 <= n -> 0 <= low -> low + n <= 16 -> 0 <= v < 2 ^ n -> 0 <= old < 65536 ->
  0 <= Z.lor (Z.land old (Z.lnot (bit_mask n low))) (Z.shiftl v low) < 65536.
Proof.
  intros Hn Hlow Hfit Hv Hold.
  set (reg := Z.lor (Z.land old (Z.lnot (bit_mask n low))) (Z.shiftl v low)).
  assert (Hmod : reg mod 2 ^ 16 = reg).
  { apply Z.bits_inj'. intros i Hi.
    destruct (Z_lt_le_dec i 16) as [Hlo|Hhi].
    - apply Z.mod_pow2_bits_low. lia.
    - rewrite Z.mod_pow2_bits_high by lia. unfold reg.
      rewrite field_merge_bits by lia.
      destruct (Z.leb_spec low i); destruct (Z.ltb_spec i (low + n)); cbn [andb];
        try lia; symmetry; apply word16_high_bits; lia. }
  rewrite <- Hmod. apply Z.mod_pos_bound. reflexivity.
Qed.

(** What any bit-field write sends back: the field holds the value, every
    bit above and below the field is as read. *)
Lemma written_word_spec (n low v : Z) (c : byte * byte) :
  0 <= n -> 0 <= low -> low + n <= 16 -> 0 <= v < 2 ^ n ->
  let old := unpack_H (fst c) (snd c) in
  let c' := written_word n low v c in
  let new := unpack_H (fst c') (snd c') in
  (new / 2 ^ low) mod 2 ^ n = v /\
  new / 2 ^ (low + n) = old / 2 ^ (low + n) /\
  new mod 2 ^ low = old mod 2 ^ low.
Proof.
  intros Hn Hlow Hfit Hv old c' new.
  pose proof (unpack_H_range (fst c) (snd c)) as Hold. fold old in Hold.
  assert (Hnew : new = Z.lor (Z.land old (Z.lnot (bit_mask n low))) (Z.shiftl v low)).
  { unfold new, c', written_word. cbn [fst snd].
    rewrite register_word_unpack_H. fold old.
    apply unpack_H_split. apply field_merge_range; lia. }
  assert (Hbits : forall i, 0 <= i ->
            Z.testbit new i
            = if (low <=? i) && (i <? low + n)
              then Z.testbit v (i - low) else Z.testbit old i).
  { intros i Hi. rewrite Hnew. apply field_merge_bits; lia. }
  rewrite <- !Z.shiftr_div_pow2, <- !Z.land_ones by lia.
  repeat split; apply Z.bits_inj'; intros j Hj.
  - rewrite Z.land_spec, Z.shiftr_spec, Hbits by lia.
    destruct (Z.leb_spec low (j + low)); [|lia].
    destruct (Z.ltb_spec (j + low) (low + n)); cbn [andb].
    + rewrite Z.ones_spec_low by lia. rewrite andb_true_r. f_equal. lia.
    + rewrite Z.ones_spec_high by lia. rewrite andb_false_r.
      symmetry. apply (small_high_bits v n); lia.
  - rewrite !Z.shiftr_spec, Hbits by lia.
    destruct (Z.leb_spec low (j + (low + n))); [|lia].
    destruct (Z.ltb_spec (j + (low + n)) (low + n)); [lia|]. reflexivity.
  - rewrite !Z.land_spec, Hbits by lia.
    destruct (Z.leb_spec low j); cbn [andb].
    + rewrite Z.ones_spec_high by lia. rewrite !andb_false_r. reflexivity.
    + reflexivity.
Qed.

Lemma unpack_H_bits (b1 b2 : byte) (i : Z) :
  0 <= i ->
  Z.testbit (unpack_H b1 b2) i
  = if i <? 8 then Z.testbit (byte_val b2) i else Z.testbit (byte_val b1) (i - 8).
Proof.
  intros Hi.
  pose proof (register_word_unpack_H (b1, b2)) as E. cbn [fst snd] in E.
  rewrite <- E. unfold register_word. cbn [fst snd].
  rewrite Z.shiftl_0_l, Z.lor_0_l, Z.lor_spec, Z.shiftl_spec by lia.
  destruct (Z.ltb_spec i 8).
  - rewrite Z.testbit_neg_r by lia. reflexivity.
  - rewrite (small_high_bits (byte_val b2) 8 i) by
      (try apply byte_val_range; lia).
    apply orb_false_r.
Qed.

Lemma stored_cell_bits (cell j : Z) :
  0 <= j ->
  Z.testbit (byte_val (byte_of_int cell)) j = Z.testbit cell j && (j <? 8).
Proof.
  intros Hj. rewrite byte_val_of_int. change 255 with (Z.ones 8).
  rewrite Z.land_spec. f_equal.
  destruct (Z.ltb_spec j 8).
  - apply Z.ones_spec_low. lia.
  - apply Z.ones_spec_high. lia.
Qed.

Lemma flipped_cell_bits (value : bool) (cell k j : Z) :
  0 <= k -> 0 <= j ->
  Z.testbit (if value then Z.lor cell (Z.shiftl 1 k)
             else Z.land cell (Z.lnot (Z.shiftl 1 k))) j
  = if j =? k then value else Z.testbit cell j.
Proof.
  intros Hk Hj.
  assert (Hone : Z.testbit (Z.shiftl 1 k) j = (j =? k)).
  { rewrite Z.shiftl_1_l, Z.pow2_bits_eqb by lia. apply Z.eqb_sym. }
  destruct value.
  - rewrite Z.lor_spec, Hone. destruct (j =? k); [apply orb_true_r | apply orb_false_r].
  - rewrite Z.land_spec, Z.lnot_spec, Hone by lia.
    destruct (j =? k); [apply andb_false_r | apply andb_true_r].
Qed.

(** What any single-bit write sends back: that bit holds the value, the
    fifteen others are as read. *)
Lemma bit_written_word_spec (bit : Z) (value : bool) (c : byte * byte) (i : Z) :
  0 <= bit < 16 -> 0 <= i ->
  let old := unpack_H (fst c) (snd c) in
  let c' := bit_written_word bit value c in
  Z.testbit (unpack_H (fst c') (snd c')) i
  = if i =? bit then value else Z.testbit old i.
Proof.
  intros Hbit Hi old c'. unfold old, c', bit_written_word, Bit_put, Bit_pick.
  destruct c as [b1 b2]. cbn [fst snd].
  destruct (Z_lt_le_dec bit 8) as [Hlow|Hhigh].
  - assert (Hq : bit / 8 = 0) by (apply Z.div_small; lia).
    assert (Hm : bit mod 8 = bit) by (apply Z.mod_small; lia).
    rewrite Hq, Hm. change (2 - 0 =? 1) with false. cbn [fst snd].
    rewrite !unpack_H_bits by lia.
    destruct (Z.ltb_spec i 8).
    + rewrite stored_cell_bits, flipped_cell_bits by lia.
      destruct (Z.ltb_spec i 8); [|lia]. apply andb_true_r.
    + destruct (Z.eqb_spec i bit); [lia | reflexivity].
  - assert (Hq : bit / 8 = 1) by (Z.to_euclidean_division_equations; lia).
    assert (Hm : bit mod 8 = bit - 8) by (Z.to_euclidean_division_equations; lia).
    rewrite Hq, Hm. change (2 - 1 =? 1) with true. cbn [fst snd].
    rewrite !unpack_H_bits by lia.
    destruct (Z.ltb_spec i 8).
    + destruct (Z.eqb_spec i bit); [lia | reflexivity].
    + rewrite stored_cell_bits, flipped_cell_bits by lia.
      destruct (Z.ltb_spec (i - 8) 8).
      * rewrite andb_true_r.
        destruct (Z.eqb_spec (i - 8) (bit - 8)); destruct (Z.eqb_spec i bit);
          try lia; reflexivity.
      * rewrite andb_false_r.
        destruct (Z.eqb_spec i bit); [lia|].
        symmetry. apply (small_high_bits (byte_val b1) 8);
          try apply byte_val_range; lia.
Qed.

Lemma land_pow2_testbit (x k : Z) :
  0 <= k -> negb (Z.land x (Z.shiftl 1 k) =? 0) = Z.testbit x k.
Proof.
  intros Hk. rewrite Z.shiftl_1_l.
  assert (Hland : Z.land x (2 ^ k) = if Z.testbit x k then 2 ^ k else 0).
  { apply Z.bits_inj'. intros j Hj.
    rewrite Z.land_spec, Z.pow2_bits_eqb by lia.
    destruct (Z.eqb_spec k j) as [->|Hne].
    - rewrite andb_true_r. destruct (Z.testbit x j) eqn:E.
      + rewrite Z.pow2_bits_true by lia. reflexivity.
      + rewrite Z.bits_0. reflexivity.
    - rewrite andb_false_r. destruct (Z.testbit x k).
      + rewrite Z.pow2_bits_false by lia. reflexivity.
      + rewrite Z.bits_0. reflexivity. }
  rewrite Hland. destruct (Z.testbit x k).
  - assert (0 < 2 ^ k) by (apply Z.pow_pos_nonneg; lia).
    destruct (Z.eqb_spec (2 ^ k) 0); [lia | reflexivity].
  - reflexivity.
Qed.

Section MoreOperations.

Context {device : Type} `{I2CTarget device}.

Lemma scaled_register_getter (register : byte) :
  reads_and_scales
    (bind (UnaryStruct_get register unpack_h) (fun raw => ret (raw_to_celsius raw)))
    register.
Proof.
  intros w bs d E r. split.
  - rewrite (bind_Ret _ _ _ _ _ (UnaryStruct_get_run _ unpack_h _ _ _ E)).
    reflexivity.
  - pose proof (unpack_h_range (fst bs) (snd bs)) as Hr. fold r in Hr.
    destruct (raw_to_celsius_exact r Hr) as (q & Hq & Heq).
    exists q. split; [exact Hq|]. split; [exact Heq|].
    rewrite Heq. unfold Qle, Qmult, inject_Z. cbn [Qnum Qden]. split; lia.
Qed.

(** X5: [temperature], [high_limit], [low_limit] and [temperature_offset]
    each perform exactly one bus transfer, the read of their own register
    (0x00, 0x02, 0x03, 0x07), and return the signed big-endian count times
    the resolution with no rounding: the float stands for count / 128 and
    lies between -256 and 255.9921875. *)
Theorem scaled_getters_read_one_register :
  reads_and_scales temperature _TEMP_RESULT /\
  reads_and_scales high_limit _T_HIGH_LIMIT /\
  reads_and_scales low_limit _T_LOW_LIMIT /\
  reads_and_scales temperature_offset _TEMP_OFFSET.
Proof.
  split; [|split; [|split]].
  - exact (scaled_register_getter _TEMP_RESULT).
  - exact (scaled_register_getter _T_HIGH_LIMIT).
  - exact (scaled_register_getter _T_LOW_LIMIT).
  - exact (scaled_register_getter _TEMP_OFFSET).
Qed.


Lemma UnaryStruct_set_run (py : interpreter) (address : byte) (n : Z)
    (w : world device) :
  -32768 <= n <= 32767 ->
  exists b1 b2,
    unpack_h b1 b2 = n /\
    UnaryStruct_set py address n w =
      (Ret tt,
       {| hw := target_write (hw w) [address; b1; b2];
          trace := trace w ++ [Write [address; b1; b2]] |}).
Proof.
  intros Hn. destruct (pack_h_unpack_h py n Hn) as (b1 & b2 & Hpack & Hun).
  exists b1, b2. split; [exact Hun|].
  unfold UnaryStruct_set, bind, lift. rewrite Hpack. reflexivity.
Qed.

(** X4: when [_scaled_limit] gives a count that fits sixteen signed bits,
    each of the three setters ([high_limit], [low_limit],
    [temperature_offset]) performs exactly one bus transfer, a write of
    its own register, with no read before it; the two bytes written decode
    (">h") to that count, on either interpreter. *)
Theorem limit_setters_write_the_count
    (py : interpreter) (value : float) (n : Z) (w : world device) :
  _scaled_limit value = Ret n ->
  -32768 <= n <= 32767 ->
  exists b1 b2,
    unpack_h b1 b2 = n /\
    set_high_limit py value w =
      (Ret tt,
       {| hw := target_write (hw w) [_T_HIGH_LIMIT; b1; b2];
          trace := trace w ++ [Write [_T_HIGH_LIMIT; b1; b2]] |}) /\
    set_low_limit py value w =
      (Ret tt,
       {| hw := target_write (hw w) [_T_LOW_LIMIT; b1; b2];
          trace := trace w ++ [Write [_T_LOW_LIMIT; b1; b2]] |}) /\
    set_temperature_offset py value w =
      (Ret tt,
       {| hw := target_write (hw w) [_TEMP_OFFSET; b1; b2];
          trace := trace w ++ [Write [_TEMP_OFFSET; b1; b2]] |}).
Proof.
  intros Hscale Hn.
  destruct (pack_h_unpack_h py n Hn) as (b1 & b2 & Hpack & Hun).
  exists b1, b2. split; [exact Hun|].
  unfold set_high_limit, set_low_limit, set_temperature_offset,
    UnaryStruct_set, bind, lift.
  rewrite Hscale, Hpack. repeat split.
Qed.

(** X6: setter then getter.  On a device that answers a register read with
    the bytes last written to it, a limit or offset set to any multiple of
    the resolution (count r, from -256 to 255.9921875 degrees) reads back
    as exactly the value that was set. *)
Theorem limit_round_trip (py : interpreter) (r : Z) (w : world device) :
  -32768 <= r <= 32767 ->
  (reads_back (hw w) _T_HIGH_LIMIT ->
   fst (bind (set_high_limit py (raw_to_celsius r)) (fun _ => high_limit) w)
   = Ret (raw_to_celsius r)) /\
  (reads_back (hw w) _T_LOW_LIMIT ->
   fst (bind (set_low_limit py (raw_to_celsius r)) (fun _ => low_limit) w)
   = Ret (raw_to_celsius r)) /\
  (reads_back (hw w) _TEMP_OFFSET ->
   fst (bind (set_temperature_offset py (raw_to_celsius r))
          (fun _ => temperature_offset) w)
   = Ret (raw_to_celsius r)).
Proof.
  intros Hr.
  destruct (conversion_ok_inv r Hr) as [_ Hscale].
  assert (Hround : forall register,
            reads_back (hw w) register ->
            fst (bind (bind (lift (_scaled_limit (raw_to_celsius r)))
                         (fun raw => UnaryStruct_set py register raw))
                   (fun _ => bind (UnaryStruct_get register unpack_h)
                               (fun raw => ret (raw_to_celsius raw))) w)
            = Ret (raw_to_celsius r)).
  { intros register Hback.
    destruct (UnaryStruct_set_run py register r w Hr) as (b1 & b2 & Hun & Hset).
    assert (Hsetter : bind (lift (_scaled_limit (raw_to_celsius r)))
                        (fun raw => UnaryStruct_set py register raw) w
                      = (Ret tt,
                         {| hw := target_write (hw w) [register; b1; b2];
                            trace := trace w ++ [Write [register; b1; b2]] |})).
    { unfold bind at 1, lift. rewrite Hscale. exact Hset. }
    rewrite (bind_Ret _ _ _ _ _ Hsetter). cbv beta.
    specialize (Hback b1 b2).
    destruct (target_read (target_write (hw w) [register; b1; b2]) [register])
      as [bs d'] eqn:E.
    cbn [fst] in Hback. subst bs.
    rewrite (bind_Ret _ _ _ _ _
               (UnaryStruct_get_run register unpack_h
                  {| hw := target_write (hw w) [register; b1; b2];
                     trace := trace w ++ [Write [register; b1; b2]] |}
                  (b1, b2) d' E)).
    cbn [fst snd]. rewrite Hun. reflexivity. }
  repeat split; intros Hback; apply (Hround _ Hback).
Qed.


Lemma discrete_setters_run (v : Z) (w : world device) (c : byte * byte) (d : device) :
  target_read (hw w) [_CONFIGURATION] = (c, d) ->
  let after c' :=
    (Ret tt,
     {| hw := target_write d [_CONFIGURATION; fst c'; snd c'];
        trace := trace w ++ [config_read c;
                             Write [_CONFIGURATION; fst c'; snd c']] |}) in
  (In v [0; 1; 2; 3] ->
   set_averaged_measurements v w = after (written_word 2 5 v c)) /\
  (In v [0; 1; 2; 3; 4; 5; 6; 7] ->
   set_measurement_delay v w = after (written_word 3 7 v c)) /\
  (In v [0; 1] ->
   set_alert_mode v w = after (bit_written_word 4 (negb (v =? 0)) c)).
Proof.
  intros E after. split; [|split]; intros Hin; apply py_in_spec in Hin.
  - unfold set_averaged_measurements. rewrite Hin. cbn [negb].
    apply (Bits_set_run 2 _ 5 v _ _ _ E).
  - unfold set_measurement_delay. rewrite Hin. cbn [negb].
    apply (Bits_set_run 3 _ 7 v _ _ _ E).
  - destruct (Bit_set_run _CONFIGURATION 4 (negb (v =? 0)) w c d E)
      as (c2 & Hrun & Hc2).
    unfold set_alert_mode. rewrite Hin. cbn [negb].
    rewrite Hrun. subst c2. reflexivity.
Qed.

Lemma configuration_getters_run (w : world device) (c : byte * byte) (d : device) :
  target_read (hw w) [_CONFIGURATION] = (c, d) ->
  let word := unpack_H (fst c) (snd c) in
  let w' := {| hw := d; trace := trace w ++ [config_read c] |} in
  averaged_measurements w = (Ret ((word / 32) mod 4), w') /\
  measurement_delay w = (Ret ((word / 128) mod 8), w') /\
  measurement_mode w = (Ret ((word / 1024) mod 4), w') /\
  alert_mode w = (Ret (Z.testbit word 4), w').
Proof.
  intros E word w'.
  assert (Hbits : forall n low, 0 <= n -> 0 <= low ->
            Bits_get n _CONFIGURATION low w
            = (Ret ((word / 2 ^ low) mod 2 ^ n), w')).
  { intros n low Hn Hlow. rewrite (Bits_get_run n _ low _ _ _ E).
    rewrite field_decode, register_word_unpack_H by lia. reflexivity. }
  split; [exact (Hbits 2 5 ltac:(lia) ltac:(lia))|].
  split; [exact (Hbits 3 7 ltac:(lia) ltac:(lia))|].
  split; [exact (Hbits 2 10 ltac:(lia) ltac:(lia))|].
  unfold alert_mode, _raw_alert_mode, Bit_get.
  rewrite (bind_Ret _ _ _ _ _ (write_then_readinto_run _ _ _ _ E)).
  unfold ret, Bit_pick. change (2 - 4 / 8 =? 1) with false. cbv iota.
  rewrite land_pow2_testbit by (change (4 mod 8) with 4; lia).
  change (4 mod 8) with 4. unfold word.
  rewrite unpack_H_bits by lia. reflexivity.
Qed.

(** X7: an accepted [averaged_measurements] or [measurement_delay] value is
    stored by one read and one write of the configuration register; in
    the word written the setter's own field (bits 6:5, bits 9:7) holds the
    value and every bit above and below the field is the bit that was
    read: sibling fields are not disturbed. *)
Theorem field_setters_keep_sibling_fields
    (v : Z) (w : world device) (c : byte * byte) (d : device) :
  target_read (hw w) [_CONFIGURATION] = (c, d) ->
  let old := unpack_H (fst c) (snd c) in
  (In v [0; 1; 2; 3] ->
   let c' := written_word 2 5 v c in
   let new := unpack_H (fst c') (snd c') in
   set_averaged_measurements v w =
     (Ret tt,
      {| hw := target_write d [_CONFIGURATION; fst c'; snd c'];
         trace := trace w ++ [config_read c;
                              Write [_CONFIGURATION; fst c'; snd c']] |}) /\
   (new / 32) mod 4 = v /\ new / 128 = old / 128 /\ new mod 32 = old mod 32) /\
  (In v [0; 1; 2; 3; 4; 5; 6; 7] ->
   let c' := written_word 3 7 v c in
   let new := unpack_H (fst c') (snd c') in
   set_measurement_delay v w =
     (Ret tt,
      {| hw := target_write d [_CONFIGURATION; fst c'; snd c'];
         trace := trace w ++ [config_read c;
                              Write [_CONFIGURATION; fst c'; snd c']] |}) /\
   (new / 128) mod 8 = v /\ new / 1024 = old / 1024 /\ new mod 128 = old mod 128).
Proof.
  intros E old.
  destruct (discrete_setters_run v w c d E) as (Havg & Hdelay & _).
  split; intros Hin c' new.
  - split; [exact (Havg Hin)|].
    assert (Hv : 0 <= v < 2 ^ 2) by (cbn in Hin; change (2 ^ 2) with 4; lia).
    apply (written_word_spec 2 5 v c); lia.
  - split; [exact (Hdelay Hin)|].
    assert (Hv : 0 <= v < 2 ^ 3) by (cbn in Hin; change (2 ^ 3) with 8; lia).
    apply (written_word_spec 3 7 v c); lia.
Qed.

(** X8: [reset] and an accepted [alert_mode] assignment are one read and
    one write of the configuration register; the word written has bit 1
    set (reset), or bit 4 equal to the value (alert mode), and its fifteen
    other bits are the bits that were read. *)
Theorem bit_setters_change_one_bit
    (w : world device) (c : byte * byte) (d : device) :
  target_read (hw w) [_CONFIGURATION] = (c, d) ->
  let old := unpack_H (fst c) (snd c) in
  (let c' := bit_written_word 1 true c in
   reset w =
     (Ret tt,
      {| hw := target_write d [_CONFIGURATION; fst c'; snd c'];
         trace := trace w ++ [config_read c;
                              Write [_CONFIGURATION; fst c'; snd c']] |}) /\
   forall i, 0 <= i ->
     Z.testbit (unpack_H (fst c') (snd c')) i
     = if i =? 1 then true else Z.testbit old i) /\
  (forall v, In v [0; 1] ->
   let c' := bit_written_word 4 (negb (v =? 0)) c in
   set_alert_mode v w =
     (Ret tt,
      {| hw := target_write d [_CONFIGURATION; fst c'; snd c'];
         trace := trace w ++ [config_read c;
                              Write [_CONFIGURATION; fst c'; snd c']] |}) /\
   forall i, 0 <= i ->
     Z.testbit (unpack_H (fst c') (snd c')) i
     = if i =? 4 then (v =? 1) else Z.testbit old i).
Proof.
  intros E old. split.
  - intros c'. split.
    + destruct (Bit_set_run _CONFIGURATION 1 true w c d E) as (c2 & Hrun & Hc2).
      unfold reset. rewrite Hrun. subst c2. reflexivity.
    + intros i Hi. apply (bit_written_word_spec 1 true c i); lia.
  - intros v Hin c'.
    destruct (discrete_setters_run v w c d E) as (_ & _ & Halert).
    split; [exact (Halert Hin)|].
    intros i Hi. unfold c', old.
    rewrite (bit_written_word_spec 4 (negb (v =? 0)) c i) by lia.
    destruct (i =? 4); [|reflexivity].
    cbn in Hin. destruct Hin as [<-|[<-|[]]]; reflexivity.
Qed.

(** X9: [averaged_measurements], [measurement_delay], [measurement_mode]
    and [alert_mode] each perform exactly one bus transfer, a read of the
    configuration register, and return their own field of the word read
    (bits 6:5, 9:7, 11:10, bit 4).  Whatever the device answers, the three
    numeric getters return a value their setter accepts (0..3, 0..7, 0..3). *)
Theorem configuration_getters_decode_their_field
    (w : world device) (c : byte * byte) (d : device) :
  target_read (hw w) [_CONFIGURATION] = (c, d) ->
  let word := unpack_H (fst c) (snd c) in
  let w' := {| hw := d; trace := trace w ++ [config_read c] |} in
  averaged_measurements w = (Ret ((word / 32) mod 4), w') /\
  measurement_delay w = (Ret ((word / 128) mod 8), w') /\
  measurement_mode w = (Ret ((word / 1024) mod 4), w') /\
  alert_mode w = (Ret (Z.testbit word 4), w') /\
  In ((word / 32) mod 4) [0; 1; 2; 3] /\
  In ((word / 128) mod 8) [0; 1; 2; 3; 4; 5; 6; 7] /\
  In ((word / 1024) mod 4) [0; 1; 2; 3].
Proof.
  intros E word w'.
  destruct (configuration_getters_run w c d E) as (Havg & Hdelay & Hmode & Halert).
  repeat (split; [assumption|]).
  assert (H4 : forall x, In (x mod 4) [0; 1; 2; 3]).
  { intros x. pose proof (Z.mod_pos_bound x 4 ltac:(lia)). cbn. lia. }
  assert (H8 : forall x, In (x mod 8) [0; 1; 2; 3; 4; 5; 6; 7]).
  { intros x. pose proof (Z.mod_pos_bound x 8 ltac:(lia)). cbn. lia. }
  auto.
Qed.


(** X10: setter then getter.  On a device that answers the next
    configuration read with the word just written, every accepted
    [averaged_measurements], [measurement_delay] and [alert_mode] value
    reads back as the value set ([alert_mode] as the boolean v == 1). *)
Theorem configuration_round_trip
    (v : Z) (w : world device) (c : byte * byte) (d : device) :
  target_read (hw w) [_CONFIGURATION] = (c, d) ->
  (In v [0; 1; 2; 3] ->
   let c' := written_word 2 5 v c in
   fst (target_read (target_write d [_CONFIGURATION; fst c'; snd c'])
          [_CONFIGURATION]) = c' ->
   fst (bind (set_averaged_measurements v) (fun _ => averaged_measurements) w)
   = Ret v) /\
  (In v [0; 1; 2; 3; 4; 5; 6; 7] ->
   let c' := written_word 3 7 v c in
   fst (target_read (target_write d [_CONFIGURATION; fst c'; snd c'])
          [_CONFIGURATION]) = c' ->
   fst (bind (set_measurement_delay v) (fun _ => measurement_delay) w)
   = Ret v) /\
  (In v [0; 1] ->
   let c' := bit_written_word 4 (negb (v =? 0)) c in
   fst (target_read (target_write d [_CONFIGURATION; fst c'; snd c'])
          [_CONFIGURATION]) = c' ->
   fst (bind (set_alert_mode v) (fun _ => alert_mode) w)
   = Ret (v =? 1)).
Proof.
  intros E.
  destruct (discrete_setters_run v w c d E) as (Havg & Hdelay & Halert).
  assert (Hget : forall cw,
            fst (target_read (target_write d [_CONFIGURATION; fst cw; snd cw])
                   [_CONFIGURATION]) = cw ->
            let w1 := {| hw := target_write d [_CONFIGURATION; fst cw; snd cw];
                         trace := trace w ++
                                  [config_read c;
                                   Write [_CONFIGURATION; fst cw; snd cw]] |} in
            let word := unpack_H (fst cw) (snd cw) in
            fst (averaged_measurements w1) = Ret ((word / 32) mod 4) /\
            fst (measurement_delay w1) = Ret ((word / 128) mod 8) /\
            fst (alert_mode w1) = Ret (Z.testbit word 4)).
  { intros cw Hback w1 word.
    destruct (target_read (target_write d [_CONFIGURATION; fst cw; snd cw])
                [_CONFIGURATION]) as [c2 d2] eqn:E2.
    cbn [fst] in Hback. subst c2.
    destruct (configuration_getters_run w1 cw d2 E2) as (H1 & H2 & _ & H4).
    rewrite H1, H2, H4. auto. }
  split; [|split]; intros Hin c' Hback; subst c'.
  - rewrite (bind_Ret _ _ _ _ _ (Havg Hin)). cbv beta.
    destruct (Hget _ Hback) as (Hread & _). rewrite Hread. f_equal.
    assert (Hv : 0 <= v < 2 ^ 2) by (cbn in Hin; change (2 ^ 2) with 4; lia).
    apply (written_word_spec 2 5 v c); lia.
  - rewrite (bind_Ret _ _ _ _ _ (Hdelay Hin)). cbv beta.
    destruct (Hget _ Hback) as (_ & Hread & _). rewrite Hread. f_equal.
    assert (Hv : 0 <= v < 2 ^ 3) by (cbn in Hin; change (2 ^ 3) with 8; lia).
    apply (written_word_spec 3 7 v c); lia.
  - rewrite (bind_Ret _ _ _ _ _ (Halert Hin)). cbv beta.
    destruct (Hget _ Hback) as (_ & _ & Hread). rewrite Hread. f_equal.
    rewrite (bit_written_word_spec 4 (negb (v =? 0)) c 4) by lia.
    cbn in Hin. destruct Hin as [<-|[<-|[]]]; reflexivity.
Qed.

(** X11: [take_single_measurement] writes ONE_SHOT (0b11) into the mode
    field, leaving the other bits as read, polls the status with a 1 ms
    sleep after every read that finds data ready clear, and returns the
    temperature register read after the status read that found it set,
    scaled exactly (count / 128); a larger budget changes nothing once it
    has returned, and it never raises. *)
Theorem take_single_measurement_returns_fresh_reading
    (fuel : nat) (w : world device) (c : byte * byte) (d : device) :
  target_read (hw w) [_CONFIGURATION] = (c, d) ->
  let old := unpack_H (fst c) (snd c) in
  let c' := written_word 2 10 _ONE_SHOT_MODE c in
  let new := unpack_H (fst c') (snd c') in
  let start := [config_read c; Write [_CONFIGURATION; fst c'; snd c']] in
  ((new / 1024) mod 4 = 3 /\ new / 4096 = old / 4096 /\
   new mod 1024 = old mod 1024) /\
  exists (waits : list (byte * byte)) (o : outcome float) (w' : world device),
    take_single_measurement fuel w = (o, w') /\
    Forall (fun bs => data_ready_of bs = false) waits /\
    match o with
    | Ret t =>
        exists s bs q,
          data_ready_of s = true /\ (length waits < fuel)%nat /\
          trace w' = trace w ++ start ++ wait_events waits ++
                     [config_read s;
                      WriteThenReadInto [_TEMP_RESULT] [fst bs; snd bs]] /\
          t = raw_to_celsius (unpack_h (fst bs) (snd bs)) /\
          PyFloat.exact t = Some q /\
          (q == inject_Z (unpack_h (fst bs) (snd bs)) * (1 # 128))%Q /\
          forall extra, take_single_measurement (fuel + extra) w = (o, w')
    | Pending => length waits = fuel /\ trace w' = trace w ++ start ++ wait_events waits
    | Raise _ => False
    end.
Proof.
  intros E old c' new start. split.
  - apply (written_word_spec 2 10 3 c); lia.
  - destruct (set_mode_and_wait_spec fuel _ONE_SHOT_MODE w c d E)
      as (waits & o & w' & Erun & Hwaits & Ho).
    exists waits, o, w'. unfold take_single_measurement.
    split; [exact Erun|]. split; [exact Hwaits|].
    destruct o as [t|e|]; try exact Ho.
    destruct Ho as (s & bs & Hs & Hlen & Ht & Htr).
    destruct (raw_to_celsius_exact _ (unpack_h_range (fst bs) (snd bs)))
      as (q & Hq & Heq).
    exists s, bs, q. subst t. repeat split; try assumption.
    intros extra. apply set_mode_and_wait_more_fuel. exact Erun.
Qed.


End MoreOperations.

Lemma guard_bounds_mantissa (s : bool) (m : positive) :
  SFltb float_256 (S754_finite s m (-44)) = false ->
  SFltb (S754_finite s m (-44)) float_minus_256 = false ->
  Z.pos m <= 4503599627370496.
Proof.
  intros Hhi Hlo. apply Pos2Z.pos_le_pos. revert Hhi Hlo.
  unfold SFltb, SFcompare, float_256, float_minus_256.
  change (Z.compare (-44) (-44)) with Eq. cbv iota.
  generalize 4503599627370496%positive. intros top.
  destruct s; intros Hhi Hlo.
  - rewrite Pos.compare_cont_spec in Hlo. unfold Pos.switch_Eq in Hlo.
    destruct (Pos.compare_spec m top) as [Heq|Hlt|Hgt].
    + subst. apply Pos.le_refl.
    + apply Pos.lt_le_incl. exact Hlt.
    + discriminate Hlo.
  - rewrite Pos.compare_cont_spec in Hhi. unfold Pos.switch_Eq in Hhi.
    destruct (Pos.compare_spec top m) as [Heq|Hlt|Hgt].
    + subst. apply Pos.le_refl.
    + discriminate Hhi.
    + apply Pos.lt_le_incl. exact Hgt.
Qed.

(** The three ways [_scaled_limit] returns a count. *)
Lemma scaled_limit_cases (v : float) (n : Z) :
  PyFloat.valid v = true ->
  _scaled_limit v = Ret n ->
  (exists s, v = S754_zero s /\ n = 0) \/
  (exists s m e,
     v = S754_finite s m e /\ digits2_pos m = 53%positive /\
     -1074 <= e <= -44 /\ (e = -44 -> Z.pos m = 4503599627370496) /\
     n = (if s then - (Z.pos m / 2 ^ (- (e + 7))) else Z.pos m / 2 ^ (- (e + 7)))) \/
  (exists s m,
     v = S754_finite s m (-1074) /\ (digits2_pos m < 53)%positive /\ n = 0).
Proof.
  intros Hvalid Hrun.
  destruct (PyFloat.gt v (PyFloat.of_int 256) || PyFloat.lt v (PyFloat.of_int (-256)))
    eqn:Hguard.
  { rewrite scaled_limit_guard in Hrun by (apply orb_true_iff; exact Hguard).
    discriminate Hrun. }
  destruct v as [s|s| |s m e].
  - left. exists s. split; [reflexivity|].
    rewrite scaled_limit_zero in Hrun. congruence.
  - destruct s; discriminate Hguard.
  - discriminate Hrun.
  - apply orb_false_elim in Hguard as [Hhi Hlo].
    unfold PyFloat.gt, PyFloat.lt in Hhi, Hlo.
    change (PyFloat.of_int 256) with float_256 in Hhi.
    change (PyFloat.of_int (-256)) with float_minus_256 in Hlo.
    unfold PyFloat.valid, valid_binary, bounded, canonical_mantissa in Hvalid.
    apply andb_true_iff in Hvalid as [Hcanon _].
    apply Z.eqb_eq in Hcanon.
    unfold fexp, emin, PyFloat.prec, PyFloat.emax in Hcanon.
    pose proof (guard_bounds_exponent s m e Hhi Hlo) as Hle.
    destruct (Pos.eq_dec (digits2_pos m) 53) as [Hnormal|Hsub].
    + right. left. exists s, m, e.
      destruct (scaled_limit_normal s m e Hnormal ltac:(lia) Hhi Hlo) as [Hn _].
      rewrite Hn in Hrun. unfold PyFloat.to_int in Hrun.
      split; [reflexivity|]. split; [exact Hnormal|]. split; [lia|]. split.
      * intros ->. pose proof (guard_bounds_mantissa s m Hhi Hlo) as Hm.
        pose proof (digits2_pos_bound m) as [Hlow _]. rewrite Hnormal in Hlow.
        change (2 ^ (53 - 1)) with 4503599627370496 in Hlow. lia.
      * destruct (e + 7) as [|p|p] eqn:Ep; try lia.
        rewrite Z.shiftr_div_pow2 in Hrun by lia.
        change (- Z.neg p) with (Z.pos p).
        destruct s; congruence.
    + right. right. assert (He : e = -1074) by lia. subst e.
      assert (Hd : (digits2_pos m < 53)%positive) by lia.
      exists s, m. split; [reflexivity|]. split; [exact Hd|].
      destruct (SFdiv_subnormal_by_resolution s m Hd) as (m' & e' & Hdiv & Hzero).
      unfold _scaled_limit, PyFloat.gt, PyFloat.lt in Hrun.
      change (PyFloat.of_int 256) with float_256 in Hrun.
      change (PyFloat.of_int (-256)) with float_minus_256 in Hrun.
      rewrite Hhi, Hlo in Hrun. cbn [orb] in Hrun.
      unfold PyFloat.truediv in Hrun.
      cbn [PyFloat.is_zero _TMP117_RESOLUTION] in Hrun.
      fold _TMP117_RESOLUTION in Hrun. rewrite Hdiv, Hzero in Hrun. congruence.
Qed.

(** X3: how far a returned count can leave the register's range.  For
    every valid binary64 value [_scaled_limit] accepts, the count lies
    between -32768 and 32768, and it is 32768, the one value that does not
    fit the signed 16-bit register, only for 256.0 itself. *)
Theorem scaled_limit_count_range (v : float) (n : Z) :
  PyFloat.valid v = true ->
  _scaled_limit v = Ret n ->
  -32768 <= n <= 32768 /\ (n = 32768 -> v = float_256).
Proof.
  intros Hvalid Hrun.
  destruct (scaled_limit_cases v n Hvalid Hrun)
    as [(s & -> & ->) | [(s & m & e & -> & Hd & He & Htop & ->) | (s & m & -> & _ & ->)]].
  - split; [lia | discriminate].
  - pose proof (digits2_pos_bound m) as [Hlow Hhigh]. rewrite Hd in Hlow, Hhigh.
    change (2 ^ (53 - 1)) with 4503599627370496 in Hlow.
    change (2 ^ 53) with 9007199254740992 in Hhigh.
    destruct (Z.eq_dec e (-44)) as [->|Hne].
    + rewrite (Htop eq_refl).
      change (4503599627370496 / 2 ^ (- (-44 + 7))) with 32768.
      destruct s; split; try lia; try discriminate.
      intros _. unfold float_256. f_equal.
      apply Pos2Z.inj. exact (Htop eq_refl).
    + assert (Hq : 0 <= Z.pos m / 2 ^ (- (e + 7)) < 32768).
      { assert (Hpow : 2 ^ 38 <= 2 ^ (- (e + 7)))
          by (apply Z.pow_le_mono_r; lia).
        change (2 ^ 38) with 274877906944 in Hpow.
        split.
        - apply Z.div_pos; lia.
        - apply Z.div_lt_upper_bound; lia. }
      destruct s; split; lia.
  - split; [lia | discriminate].
Qed.

Lemma pos_shiftl_pow2 (p : positive) :
  Z.pos (Pos.shiftl 1 (N.pos p)) = 2 ^ Z.pos p.
Proof.
  change (Pos.shiftl 1 (N.pos p)) with (Pos.iter xO 1%positive p).
  change (2 ^ Z.pos p) with (Pos.iter (Z.mul 2) 1 p).
  apply (Pos.iter_swap_gen _ _ Z.pos xO (Z.mul 2)). reflexivity.
Qed.

Lemma Qtrunc_scaled (s : bool) (m p : positive) (a : Z) :
  0 <= a ->
  (Z.pos m * 128) / 2 ^ Z.pos p = a ->
  Qtrunc ((if s then Qopp (Z.pos m # Pos.shiftl 1 (N.pos p))
           else Z.pos m # Pos.shiftl 1 (N.pos p)) * (128 # 1))
  = if s then - a else a.
Proof.
  intros Ha Hdiv.
  assert (Hpow : 0 < 2 ^ Z.pos p) by (apply Z.pow_pos_nonneg; lia).
  destruct s; unfold Qtrunc, Qmult, Qopp; cbn [Qnum Qden];
    rewrite Pos.mul_1_r, pos_shiftl_pow2.
  - rewrite Z.mul_opp_l, Z.quot_opp_l by lia.
    rewrite Z.quot_div_nonneg by lia. congruence.
  - rewrite Z.quot_div_nonneg by lia. exact Hdiv.
Qed.

(** X2: whenever [_scaled_limit] returns, the count is the integer part,
    toward zero, of the exact quotient value / 0.0078125 (value * 128 as a
    rational number): the float division adds no rounding error of its
    own. *)
Theorem scaled_limit_truncates_exact_quotient (v : float) (n : Z) :
  PyFloat.valid v = true ->
  _scaled_limit v = Ret n ->
  exists q, PyFloat.exact v = Some q /\ n = Qtrunc (q * (128 # 1)).
Proof.
  intros Hvalid Hrun.
  destruct (scaled_limit_cases v n Hvalid Hrun)
    as [(s & -> & ->) | [(s & m & e & -> & Hd & He & _ & ->) | (s & m & -> & Hd & ->)]].
  - exists (0 # 1). split; reflexivity.
  - destruct e as [|p|p]; try lia. cbn [PyFloat.exact].
    eexists. split; [reflexivity|].
    assert (Hpow : 0 < 2 ^ (- (Z.neg p + 7))) by (apply Z.pow_pos_nonneg; lia).
    rewrite (Qtrunc_scaled s m p (Z.pos m / 2 ^ (- (Z.neg p + 7)))).
    + destruct s; reflexivity.
    + apply Z.div_pos; lia.
    + replace (2 ^ Z.pos p) with (2 ^ (- (Z.neg p + 7)) * 128).
      * apply Z.div_mul_cancel_r; lia.
      * change 128 with (2 ^ 7). rewrite <- Z.pow_add_r by lia. f_equal. lia.
  - cbn [PyFloat.exact]. eexists. split; [reflexivity|].
    rewrite (Qtrunc_scaled s m 1074 0).
    + destruct s; reflexivity.
    + lia.
    + apply Z.div_small.
      pose proof (digits2_pos_bound m) as [_ Hm].
      assert (Hle : 2 ^ Z.pos (digits2_pos m) <= 2 ^ 52)
        by (apply Z.pow_le_mono_r; lia).
      assert (Hbig : 2 ^ 52 * 128 <= 2 ^ 1074).
      { change 128 with (2 ^ 7). rewrite <- Z.pow_add_r by lia.
        apply Z.pow_le_mono_r; lia. }
      lia.
Qed.

(** ** Whether the polling loop ends *)

Section Termination.

Context {device : Type} `{I2CTarget device}.


Lemma poll_first_ready (n : nat) :
  forall (d : device) (tr : list event),
    (forall i, (i < n)%nat ->
       data_ready_of (fst (target_read (after_waits i d) [_CONFIGURATION])) = false) ->
    data_ready_of (fst (target_read (after_waits n d) [_CONFIGURATION])) = true ->
    forall extra,
    exists tr',
      poll_data_ready (S n + extra) {| hw := d; trace := tr |}
      = (Ret tt,
         {| hw := snd (target_read (after_waits n d) [_CONFIGURATION]);
            trace := tr' |}) /\
      length (filter (fun e => match e with Sleep _ => true | _ => false end) tr')
      = (length (filter (fun e => match e with Sleep _ => true | _ => false end) tr)
         + n)%nat.
Proof.
  induction n as [|k IH]; intros d tr Hwait Hready extra.
  - cbn [after_waits] in Hready.
    destruct (target_read d [_CONFIGURATION]) as [bs d'] eqn:E.
    cbn [fst] in Hready.
    cbn [poll_data_ready Nat.add after_waits].
    rewrite (bind_Ret _ _ _ _ _
               (read_status_run {| hw := d; trace := tr |} bs d' E)).
    cbn [snd hw trace]. rewrite Hready, E. cbn [snd].
    eexists. split; [reflexivity|].
    rewrite filter_app, length_app. cbn. lia.
  - pose proof (Hwait O ltac:(lia)) as H0. cbn [after_waits] in H0.
    destruct (target_read d [_CONFIGURATION]) as [bs d'] eqn:E.
    cbn [fst] in H0.
    change (S (S k) + extra)%nat with (S (S k + extra)).
    cbn [poll_data_ready].
    rewrite (bind_Ret _ _ _ _ _
               (read_status_run {| hw := d; trace := tr |} bs d' E)).
    cbn [snd hw trace]. rewrite H0.
    rewrite (bind_Ret _ _ _ _ _ (time_sleep_run _ _)). cbn [hw trace].
    destruct (IH (target_idle d' float_0_001)
                ((tr ++ [config_read bs]) ++ [Sleep float_0_001]))
      with (extra := extra) as (tr' & Hrun & Hlen).
    + intros i Hi. specialize (Hwait (S i) ltac:(lia)).
      cbn [after_waits] in Hwait. rewrite E in Hwait. exact Hwait.
    + cbn [after_waits] in Hready. rewrite E in Hready. exact Hready.
    + exists tr'. cbn [after_waits]. rewrite E. cbn [snd].
      split; [exact Hrun|].
      rewrite Hlen, !filter_app, !length_app. cbn. lia.
Qed.


(** X14: [take_single_measurement] returns as soon as the sensor is ready.
    If, after the mode write, the first n status reads (each followed by
    the 1 ms sleep) find data ready clear and the next one finds it set,
    then with any budget above n the call returns, having slept exactly n
    times, and its result is the temperature register as the device holds
    it right after that status read. *)
Theorem take_single_measurement_returns_when_ready
    (n extra : nat) (w : world device) (c : byte * byte) (d : device) :
  target_read (hw w) [_CONFIGURATION] = (c, d) ->
  let c' := written_word 2 10 _ONE_SHOT_MODE c in
  let d1 := target_write d [_CONFIGURATION; fst c'; snd c'] in
  (forall i, (i < n)%nat ->
     data_ready_of (fst (target_read (after_waits i d1) [_CONFIGURATION])) = false) ->
  data_ready_of (fst (target_read (after_waits n d1) [_CONFIGURATION])) = true ->
  let d2 := snd (target_read (after_waits n d1) [_CONFIGURATION]) in
  let bs := fst (target_read d2 [_TEMP_RESULT]) in
  exists w',
    take_single_measurement (S n + extra) w
    = (Ret (raw_to_celsius (unpack_h (fst bs) (snd bs))), w') /\
    hw w' = snd (target_read d2 [_TEMP_RESULT]) /\
    length (filter (fun e => match e with Sleep _ => true | _ => false end) (trace w'))
    = (length (filter (fun e => match e with Sleep _ => true | _ => false end) (trace w))
       + n)%nat.
Proof.
  intros E c' d1 Hwait Hready d2 bs.
  unfold take_single_measurement, _set_mode_and_wait_for_measurement.
  rewrite (bind_Ret _ _ _ _ _ (Bits_set_run 2 _ 10 _ONE_SHOT_MODE _ _ _ E)).
  fold c' d1.
  destruct (poll_first_ready n d1
              (trace w ++ [WriteThenReadInto [_CONFIGURATION] [fst c; snd c];
                           Write [_CONFIGURATION; fst c'; snd c']])
              Hwait Hready extra) as (tr' & Hpoll & Hlen).
  rewrite (bind_Ret _ _ _ _ _ Hpoll). fold d2.
  destruct (target_read d2 [_TEMP_RESULT]) as [bs' d3] eqn:E3.
  unfold _raw_temperature.
  rewrite (bind_Ret _ _ _ _ _
             (UnaryStruct_get_run _TEMP_RESULT unpack_h
                {| hw := d2; trace := tr' |} bs' d3 E3)).
  eexists. split; [reflexivity|]. cbn [hw trace snd]. split; [reflexivity|].
  rewrite filter_app, length_app, Hlen, filter_app, length_app. cbn. lia.
Qed.

End Termination.

(** ** Further runs on the bench *)

Lemma scaled_limit_total_witness :
  PyFloat.valid (PyFloat.of_int 25) = true /\
  exists n, _scaled_limit (PyFloat.of_int 25) = Ret n.
Proof.
  split; [reflexivity|].
  exact (scaled_limit_total (PyFloat.of_int 25) eq_refl).
Defined.

Lemma scaled_limit_truncates_exact_quotient_witness :
  let hundredth :=
    SFdiv PyFloat.prec PyFloat.emax (PyFloat.of_int 1) (PyFloat.of_int 100) in
  PyFloat.valid hundredth = true /\
  _scaled_limit hundredth = Ret 1 /\
  exists q, PyFloat.exact hundredth = Some q /\ 1 = Qtrunc (q * (128 # 1)).
Proof.
  intros hundredth.
  assert (Hvalid : PyFloat.valid hundredth = true) by reflexivity.
  assert (Hrun : _scaled_limit hundredth = Ret 1) by reflexivity.
  split; [exact Hvalid|]. split; [exact Hrun|].
  exact (scaled_limit_truncates_exact_quotient hundredth 1 Hvalid Hrun).
Defined.

Lemma scaled_limit_count_range_witness :
  PyFloat.valid (PyFloat.of_int 256) = true /\
  _scaled_limit (PyFloat.of_int 256) = Ret 32768 /\
  -32768 <= 32768 <= 32768 /\
  (32768 = 32768 -> PyFloat.of_int 256 = float_256).
Proof.
  assert (Hvalid : PyFloat.valid (PyFloat.of_int 256) = true) by reflexivity.
  assert (Hrun : _scaled_limit (PyFloat.of_int 256) = Ret 32768) by reflexivity.
  split; [exact Hvalid|]. split; [exact Hrun|].
  exact (scaled_limit_count_range (PyFloat.of_int 256) 32768 Hvalid Hrun).
Defined.

Lemma limit_setters_write_the_count_witness :
  _scaled_limit (PyFloat.of_int 25) = Ret 3200 /\
  -32768 <= 3200 <= 32767 /\
  exists b1 b2,
    unpack_h b1 b2 = 3200 /\
    trace (snd (set_high_limit CircuitPython (PyFloat.of_int 25) (bench_world [] 0)))
    = [Write [_T_HIGH_LIMIT; b1; b2]].
Proof.
  assert (Hrun : _scaled_limit (PyFloat.of_int 25) = Ret 3200) by reflexivity.
  assert (Hn : -32768 <= 3200 <= 32767) by lia.
  split; [exact Hrun|]. split; [exact Hn|].
  destruct (limit_setters_write_the_count CircuitPython (PyFloat.of_int 25) 3200
              (bench_world [] 0) Hrun Hn) as (b1 & b2 & Hun & Hhigh & _).
  exists b1, b2. split; [exact Hun|]. rewrite Hhigh. reflexivity.
Defined.

Lemma scaled_getters_read_one_register_witness :
  let w := bench_world [] 0 in
  fst (high_limit w) = Ret (raw_to_celsius 24576) /\
  trace (snd (high_limit w)) = [WriteThenReadInto [_T_HIGH_LIMIT] [x60; x00]].
Proof.
  intros w.
  destruct (@scaled_getters_read_one_register bench bench_target)
    as (_ & Hhigh & _).
  destruct (Hhigh w (x60, x00) (hw w) eq_refl) as [Hrun _].
  rewrite Hrun. split; reflexivity.
Defined.

Lemma limit_round_trip_witness :
  let w := bench_world [] 0 in
  -32768 <= 1280 <= 32767 /\
  reads_back (hw w) _T_HIGH_LIMIT /\
  fst (bind (set_high_limit CPython (raw_to_celsius 1280)) (fun _ => high_limit) w)
  = Ret (raw_to_celsius 1280).
Proof.
  intros w.
  assert (Hr : -32768 <= 1280 <= 32767) by lia.
  assert (Hback : reads_back (hw w) _T_HIGH_LIMIT) by (intros b1 b2; reflexivity).
  split; [exact Hr|]. split; [exact Hback|].
  destruct (limit_round_trip CPython 1280 w Hr) as (Hhigh & _).
  exact (Hhigh Hback).
Defined.

Lemma field_setters_keep_sibling_fields_witness :
  let w := bench_world [] 0 in
  target_read (hw w) [_CONFIGURATION] = ((x22, x20), hw w) /\
  In 3 [0; 1; 2; 3] /\
  fst (set_averaged_measurements 3 w) = Ret tt /\
  written_word 2 5 3 (x22, x20) = (x22, x60).
Proof.
  intros w.
  assert (E : target_read (hw w) [_CONFIGURATION] = ((x22, x20), hw w))
    by reflexivity.
  assert (Hin : In 3 [0; 1; 2; 3]) by (cbn; auto).
  split; [exact E|]. split; [exact Hin|].
  destruct (field_setters_keep_sibling_fields 3 w _ _ E) as [Havg _].
  destruct (Havg Hin) as (Hrun & _).
  rewrite Hrun. split; reflexivity.
Defined.

Lemma bit_setters_change_one_bit_witness :
  let w := bench_world [] 0 in
  target_read (hw w) [_CONFIGURATION] = ((x22, x20), hw w) /\
  fst (reset w) = Ret tt /\
  bit_written_word 1 true (x22, x20) = (x22, x22) /\
  fst (set_alert_mode 1 w) = Ret tt /\
  bit_written_word 4 true (x22, x20) = (x22, x30).
Proof.
  intros w.
  assert (E : target_read (hw w) [_CONFIGURATION] = ((x22, x20), hw w))
    by reflexivity.
  split; [exact E|].
  destruct (bit_setters_change_one_bit w _ _ E) as [[Hreset _] Halert].
  destruct (Halert 1 ltac:(cbn; auto)) as [Hset _].
  rewrite Hreset, Hset. repeat split.
Defined.

Lemma configuration_getters_decode_their_field_witness :
  let w := bench_world [] 0 in
  target_read (hw w) [_CONFIGURATION] = ((x22, x20), hw w) /\
  fst (averaged_measurements w) = Ret 1 /\
  fst (measurement_delay w) = Ret 4 /\
  fst (measurement_mode w) = Ret 0 /\
  fst (alert_mode w) = Ret false.
Proof.
  intros w.
  assert (E : target_read (hw w) [_CONFIGURATION] = ((x22, x20), hw w))
    by reflexivity.
  split; [exact E|].
  destruct (configuration_getters_decode_their_field w _ _ E)
    as (Havg & Hdelay & Hmode & Halert & _).
  rewrite Havg, Hdelay, Hmode, Halert. repeat split.
Defined.

Lemma configuration_round_trip_witness :
  let w := bench_world [] 0 in
  target_read (hw w) [_CONFIGURATION] = ((x22, x20), hw w) /\
  fst (bind (set_measurement_delay 6) (fun _ => measurement_delay) w) = Ret 6.
Proof.
  intros w.
  assert (E : target_read (hw w) [_CONFIGURATION] = ((x22, x20), hw w))
    by reflexivity.
  split; [exact E|].
  destruct (configuration_round_trip 6 w _ _ E) as (_ & Hdelay & _).
  apply Hdelay; [cbn; auto 10 | reflexivity].
Defined.

Lemma take_single_measurement_returns_fresh_reading_witness :
  let w := bench_world [] 2 in
  target_read (hw w) [_CONFIGURATION]
  = ((x02, x20),
     {| registers := registers (hw w); conversions_running := 1 |}) /\
  fst (take_single_measurement 5 w) = Ret (PyFloat.of_int 1) /\
  (forall extra,
     take_single_measurement (5 + extra) w = take_single_measurement 5 w).
Proof.
  intros w.
  assert (E : target_read (hw w) [_CONFIGURATION]
              = ((x02, x20),
                 {| registers := registers (hw w); conversions_running := 1 |}))
    by reflexivity.
  split; [exact E|]. split; [reflexivity|].
  destruct (take_single_measurement_returns_fresh_reading 5 w _ _ E)
    as (_ & waits & o & w' & Erun & _ & Ho).
  rewrite Erun.
  assert (Ho' : o = Ret (PyFloat.of_int 1)).
  { pose proof (f_equal fst Erun) as Efst. cbn [fst] in Efst.
    rewrite <- Efst. reflexivity. }
  subst o.
  destruct Ho as (s & bs & q & _ & _ & _ & _ & _ & _ & Hmore). exact Hmore.
Defined.



Lemma take_single_measurement_returns_when_ready_witness :
  let w := bench_world [] 2 in
  target_read (hw w) [_CONFIGURATION]
  = ((x02, x20),
     {| registers := registers (hw w); conversions_running := 1 |}) /\
  exists w',
    take_single_measurement 2 w = (Ret (raw_to_celsius 128), w') /\
    length (filter (fun e => match e with Sleep _ => true | _ => false end)
              (trace w')) = 1%nat.
Proof.
  intros w.
  assert (E : target_read (hw w) [_CONFIGURATION]
              = ((x02, x20),
                 {| registers := registers (hw w); conversions_running := 1 |}))
    by reflexivity.
  split; [exact E|].
  destruct (take_single_measurement_returns_when_ready 1 0 w _ _ E)
    as (w' & Hrun & _ & Hlen).
  - intros i Hi. assert (i = O) by lia. subst i. reflexivity.
  - reflexivity.
  - exists w'. split; [exact Hrun | exact Hlen].
Defined.
